(** * The GPU-slicing device plugin: enumeration and health monitoring

    A shallow embedding of [nvidia.go].  The plugin advertises every
    physical GPU as many virtual devices (one per unit of usable memory),
    names each of them with a fake identifier built from the GPU's UUID,
    and watches the NVML event stream to report unhealthy devices.

    Layout: Go library fragments, the NVML binding, the plugin's own
    functions, a few concrete hosts, and then the properties. *)

From Stdlib Require Import ZArith String Ascii List Lia DecimalString Bool.
From Stdlib Require DecimalN.
Import ListNotations.

Local Open Scope string_scope.
Local Open Scope Z_scope.

(** ** Go values *)

(** Go's [uint] on the 64-bit platforms the plugin is built for:
    arithmetic wraps around modulo [2^64]. *)
Definition uint_modulus : Z := 2 ^ 64.

Definition uint (z : Z) : Z := z mod uint_modulus.

(** Go's [error]: [nil] or a value with a message. *)
Definition error : Type := option string.

(** Outcome of code that may panic. *)
Inductive Res (A : Type) : Type :=
| Ok (a : A)
| Panic (msg : string).

Arguments Ok {A} a.
Arguments Panic {A} msg.

(** ** Package [strings] (the functions the plugin calls, on byte strings) *)
Module strings.

(** [s[n:]] *)
Fixpoint dropBytes (n : nat) (s : string) : string :=
  match n, s with
  | O, _ => s
  | S _, EmptyString => EmptyString
  | S n', String _ s' => dropBytes n' s'
  end.

Fixpoint HasPrefix (s pre : string) {struct pre} : bool :=
  match pre with
  | EmptyString => true
  | String a pre' =>
      match s with
      | EmptyString => false
      | String b s' => Ascii.eqb a b && HasPrefix s' pre'
      end
  end.

(** [len(s) >= len(suffix) && s[len(s)-len(suffix):] == suffix] *)
Definition HasSuffix (s suffix : string) : bool :=
  (String.length suffix <=? String.length s)%nat
  && String.eqb (dropBytes (String.length s - String.length suffix) s) suffix.

(** Byte offset of the first occurrence of [substr] in [s]; [None] is
    Go's [-1]. *)
Fixpoint Index (s substr : string) : option nat :=
  if HasPrefix s substr then Some O
  else match s with
       | EmptyString => None
       | String _ s' => option_map S (Index s' substr)
       end.

Definition Contains (s substr : string) : bool :=
  match Index s substr with
  | Some _ => true
  | None => false
  end.

(** Is every byte below [utf8.RuneSelf]? *)
Fixpoint isASCII (s : string) : bool :=
  match s with
  | EmptyString => true
  | String c s' => (nat_of_ascii c <? 128)%nat && isASCII s'
  end.

Definition lowerByte (c : ascii) : ascii :=
  let n := nat_of_ascii c in
  if ((65 <=? n) && (n <=? 90))%nat then ascii_of_nat (n + 32) else c.

(** The ASCII path of [ToLower]: the letters [A] to [Z] are mapped to
    lower case and every other byte is kept. *)
Fixpoint lowerASCII (s : string) : string :=
  match s with
  | EmptyString => EmptyString
  | String c s' => String (lowerByte c) (lowerASCII s')
  end.

(** [ToLower]: an ASCII string is lower-cased byte by byte; a string with
    a byte outside ASCII goes through [Map(unicode.ToLower, s)], which
    depends on the Unicode case tables of the library and is taken as the
    parameter [mapLower]. *)
Definition ToLower (mapLower : string -> string) (s : string) : string :=
  if isASCII s then lowerASCII s else mapLower s.

Fixpoint explode (s : string) : list string :=
  match s with
  | EmptyString => []
  | String c s' => String c EmptyString :: explode s'
  end.

(** The splitting loop of [genSplit]: cut at the first occurrence of
    [sep], continue with what follows it.  Every cut consumes at least one
    byte when [sep] is not empty, so [String.length s] rounds are enough. *)
Fixpoint genSplit (rounds : nat) (s sep : string) : list string :=
  match rounds with
  | O => [s]
  | S rounds' =>
      match Index s sep with
      | None => [s]
      | Some m =>
          String.substring 0 m s
            :: genSplit rounds' (dropBytes (m + String.length sep) s) sep
      end
  end.

Definition Split (s sep : string) : list string :=
  match sep with
  | EmptyString => explode s
  | String _ _ => genSplit (String.length s) s sep
  end.

End strings.

(** ** Package [strconv] *)
Module strconv.

Definition digitOf (c : ascii) : option Z :=
  let n := nat_of_ascii c in
  if ((48 <=? n) && (n <=? 57))%nat then Some (Z.of_nat n - 48) else None.

(** Value of a run of decimal digits, most significant first. *)
Fixpoint parseDigits (acc : Z) (s : string) : option Z :=
  match s with
  | EmptyString => Some acc
  | String c s' =>
      match digitOf c with
      | Some d => parseDigits (acc * 10 + d) s'
      | None => None
      end
  end.

Definition parseUnsigned (s : string) : option Z :=
  match s with
  | EmptyString => None
  | String _ _ => parseDigits 0 s
  end.

(** [Atoi]: an optional sign, at least one decimal digit, and a value that
    fits Go's 64-bit [int]; [None] stands for the non-nil error. *)
Definition Atoi (s : string) : option Z :=
  let signed :=
    match s with
    | String "-" s' => option_map Z.opp (parseUnsigned s')
    | String "+" s' => parseUnsigned s'
    | _ => parseUnsigned s
    end in
  match signed with
  | Some v => if (- 2 ^ 63 <=? v) && (v <=? 2 ^ 63 - 1) then Some v else None
  | None => None
  end.

End strconv.

(** ** Package [fmt] *)
Module fmt.

(** The [%d] verb applied to a [uint]. *)
Definition verb_d (n : Z) : string :=
  NilZero.string_of_uint (N.to_uint (Z.to_N n)).

(** The [%v] verb applied to an [int]. *)
Definition verb_v_int (n : Z) : string :=
  NilZero.string_of_int (Z.to_int n).

(** The line feed that ends the text of [log.Panicln] and of the formats
    of [log.Panicf]. *)
Definition newline : string := String (ascii_of_nat 10) EmptyString.

End fmt.

(** ** Fake identifiers *)

Definition separator : string := "-_-".

(** [fmt.Sprintf("%s-_-%d", realID, fakeCounter)] *)
Definition generateFakeDeviceID (realID : string) (fakeCounter : Z) : string :=
  realID ++ separator ++ fmt.verb_d fakeCounter.

(** [strings.Split(fakeDeviceID, "-_-")[0]].  [Split] with a non-empty
    separator returns at least one piece ([Split_separator_nonempty]
    below), so the index expression cannot go out of range and the last
    branch is never taken. *)
Definition extractRealDeviceID (fakeDeviceID : string) : string :=
  match strings.Split fakeDeviceID separator with
  | first :: _ => first
  | [] => EmptyString
  end.

(** ** The NVML binding (package [nvml]), as far as the plugin uses it *)
Module nvml.

(** [nvml.Device]: the fields the plugin reads.  [Memory] and
    [CPUAffinity] are pointers and may be nil. *)
Record Device : Type := {
  UUID : string;
  Path : string;
  Memory : option Z;
  CPUAffinity : option Z
}.

(** [nvml.Event]: three pointers and two [uint64] codes. *)
Record Event : Type := {
  EventUUID : option string;
  GpuInstanceId : option Z;
  ComputeInstanceId : option Z;
  Etype : Z;
  Edata : Z
}.

(** [nvmlEventTypeXidCriticalError] *)
Definition XidCriticalError : Z := 8.

(** What the driver answers.  Every call returns a value and an [error],
    as in Go. *)
Record Binding : Type := {
  GetDeviceCount : Z * error;
  NewDevice : Z -> Device * error;
  IsMigEnabled : Device -> bool * error;
  GetMigDevices : Device -> list Device * error;
  ParseMigDeviceUUID : string -> (string * Z * Z) * error;
  RegisterEventForDevice : Z -> string -> error
}.

End nvml.

(** ** The plugin's data *)

(** [pluginapi.Healthy] *)
Definition Healthy : string := "Healthy".

(** [pluginapi.TopologyInfo], reduced to the NUMA node identifiers. *)
Definition TopologyInfo : Type := list Z.

(** [Device]: the embedded [pluginapi.Device] ([ID], [Health],
    [Topology]) and the device node path. *)
Record Device : Type := {
  ID : string;
  Health : string;
  Topology : option TopologyInfo;
  Path : string
}.

(** [MigStrategy]: the interface whose [MatchesResource] method selects
    the MIG devices of a resource. *)
Record MigStrategy : Type := {
  MatchesResource : nvml.Device -> string -> bool
}.

Record GpuDeviceManager : Type := {
  skipMigEnabledGPUs : bool
}.

Record MigDeviceManager : Type := {
  strategy : MigStrategy;
  resource : string
}.

Definition NewGpuDeviceManager (skip : bool) : GpuDeviceManager :=
  {| skipMigEnabledGPUs := skip |}.

Definition NewMigDeviceManager (s : MigStrategy) (r : string) : MigDeviceManager :=
  {| strategy := s; resource := r |}.

(** What the process finds around it, and the library behaviour that is
    taken as given: the environment variables; the outcome of
    [fmt.Sscanf(path, "/dev/nvidia%d", &id)] on a device node path;
    [strings.Map(unicode.ToLower, s)], the lower-casing of a string with
    a byte outside ASCII; the text of the error that [strconv.Atoi]
    returns for a string it rejects; and the driver. *)
Record Host : Type := {
  Getenv : string -> string;
  ScanNodeIndex : string -> Z * error;
  MapToLower : string -> string;
  AtoiErrorText : string -> string;
  driver : nvml.Binding
}.

(** [int64(x)] of a [uint]: values from [2^63] on wrap around. *)
Definition int64 (z : Z) : Z := (z + 2 ^ 63) mod 2 ^ 64 - 2 ^ 63.

(** ** Code that reads and writes the global [gpuMemory] and may panic *)

Definition M (A : Type) : Type := Z -> Res (A * Z).

Definition ret {A : Type} (a : A) : M A := fun mem => Ok (a, mem).

Definition bind {A B : Type} (m : M A) (k : A -> M B) : M B :=
  fun mem =>
    match m mem with
    | Ok (a, mem') => k a mem'
    | Panic msg => Panic msg
    end.

Definition panic {A : Type} (msg : string) : M A := fun _ => Panic msg.

Declare Scope go_scope.
Delimit Scope go_scope with go.

Notation "x <- m ;; k" := (bind m (fun x => k))
  (at level 61, m at next level, right associativity) : go_scope.
Notation "m ;;; k" := (bind m (fun _ => k))
  (at level 61, right associativity) : go_scope.

Local Open Scope go_scope.

(** [check]: [log.Panicln("Fatal:", err)] on a non-nil error, a panic
    with the text of [fmt.Sprintln]: the operands separated by a space
    and a line feed at the end. *)
Definition check (err : error) : M unit :=
  match err with
  | None => ret tt
  | Some msg => panic ("Fatal: " ++ msg ++ fmt.newline)
  end.

(** [*p]; the panic of a nil pointer carries a [runtime.Error], given
    here by its text. *)
Definition deref {A : Type} (p : option A) : M A :=
  match p with
  | Some v => ret v
  | None => panic "runtime error: invalid memory address or nil pointer dereference"
  end.

Definition setGPUMemory (raw : Z) : M unit := fun _ => Ok (tt, raw).

Definition getGPUMemory : M Z := fun mem => Ok (mem, mem).

(** [for i := uint(0); i < n; i++ { devs = body(i, devs) }], where a
    [continue] is a body that returns [devs] as it got it. *)
Fixpoint forUint (rounds : nat) (i : Z) (body : Z -> list Device -> M (list Device))
  (devs : list Device) : M (list Device) :=
  match rounds with
  | O => ret devs
  | S rounds' => devs' <- body i devs ;; forUint rounds' (i + 1) body devs'
  end.

(** The values [j] takes in [for j := uint(0); j < n; j++]. *)
Definition uintRange (n : Z) : list Z := map Z.of_nat (seq 0 (Z.to_nat n)).

Section Plugin.

(** The name of the reservation variable is a constant declared in another
    file of the package. *)
Variable envReservedMemPerGPU : string.

Variable host : Host.

(** The two panics carry the texts of [log.Panicf]: the formats
    ["Fatal: Could not parse %s environment variable: %v\n"] and
    ["Fatal: invalid %s environment variable value: %v\n"], filled with
    the name of the variable and the error of [strconv.Atoi] or the
    value. *)
Definition getReservedMemPerGPU : M Z :=
  let strPer := Getenv host envReservedMemPerGPU in
  match strconv.Atoi strPer with
  | None =>
      panic ("Fatal: Could not parse " ++ envReservedMemPerGPU
             ++ " environment variable: " ++ AtoiErrorText host strPer
             ++ fmt.newline)
  | Some rawPerGPU =>
      if (rawPerGPU >? 100) || (rawPerGPU <=? 0)
      then panic ("Fatal: invalid " ++ envReservedMemPerGPU
                  ++ " environment variable value: " ++ fmt.verb_v_int rawPerGPU
                  ++ fmt.newline)
      else ret (uint rawPerGPU)
  end.

(** The virtual device appended by the innermost loops. *)
Definition fakeDevice (d : nvml.Device) (j : Z) : Device :=
  {| ID := generateFakeDeviceID (nvml.UUID d) j;
     Health := Healthy;
     Topology := None;
     Path := nvml.Path d |}.

(** [for j := uint(0); j < actual; j++ { devs = append(devs, ...) }] *)
Definition appendFakeDevices (devs : list Device) (d : nvml.Device) (actual : Z)
  : list Device :=
  devs ++ map (fakeDevice d) (uintRange actual).

(** [if getGPUMemory() == uint(0) { setGPUMemory(uint( *d.Memory)) }] *)
Definition latchGPUMemory (d : nvml.Device) : M unit :=
  mem <- getGPUMemory ;;
  if mem =? 0
  then (m <- deref (nvml.Memory d) ;; setGPUMemory (uint m))
  else ret tt.

(** One round of the loop of [GpuDeviceManager.Devices].  The map
    [realDevNames] is local and only written, so it is left out; the scan
    of the path that fills it is kept because its failure is fatal. *)
Definition gpuDevicesBody (g : GpuDeviceManager) (i : Z) (devs : list Device)
  : M (list Device) :=
  let '(d, err) := nvml.NewDevice (driver host) i in
  check err ;;;
  let '(_, err) := ScanNodeIndex host (nvml.Path d) in
  check err ;;;
  latchGPUMemory d ;;;
  let '(migEnabled, err) := nvml.IsMigEnabled (driver host) d in
  check err ;;;
  if migEnabled && skipMigEnabledGPUs g then ret devs
  else
    reserve <- getReservedMemPerGPU ;;
    mem <- getGPUMemory ;;
    let actual := uint ((mem / 100) * uint (100 - reserve)) in
    _ <- deref (nvml.Memory d) ;;
    ret (appendFakeDevices devs d actual).

Definition GpuDeviceManager_Devices (g : GpuDeviceManager) : M (list Device) :=
  let '(n, err) := nvml.GetDeviceCount (driver host) in
  check err ;;;
  forUint (Z.to_nat n) 0 (gpuDevicesBody g) [].

(** [for _, mig := range migs { ... }] of [MigDeviceManager.Devices] *)
Fixpoint migRange (m : MigDeviceManager) (d : nvml.Device) (actual : Z)
  (migs : list nvml.Device) (devs : list Device) : list Device :=
  match migs with
  | [] => devs
  | mig :: migs' =>
      if negb (MatchesResource (strategy m) mig (resource m))
      then migRange m d actual migs' devs
      else migRange m d actual migs' (appendFakeDevices devs d actual)
  end.

Definition migDevicesBody (m : MigDeviceManager) (i : Z) (devs : list Device)
  : M (list Device) :=
  let '(d, err) := nvml.NewDevice (driver host) i in
  check err ;;;
  let '(_, err) := ScanNodeIndex host (nvml.Path d) in
  check err ;;;
  _ <- deref (nvml.Memory d) ;;
  latchGPUMemory d ;;;
  let '(migEnabled, err) := nvml.IsMigEnabled (driver host) d in
  check err ;;;
  if negb migEnabled then ret devs
  else
    let '(migs, err) := nvml.GetMigDevices (driver host) d in
    check err ;;;
    mem <- getGPUMemory ;;
    reserve <- getReservedMemPerGPU ;;
    let actual := uint (mem * uint (1 - reserve / 100)) in
    ret (migRange m d actual migs devs).

Definition MigDeviceManager_Devices (m : MigDeviceManager) : M (list Device) :=
  let '(n, err) := nvml.GetDeviceCount (driver host) in
  check err ;;;
  forUint (Z.to_nat n) 0 (migDevicesBody m) [].

(** [buildDevice] (no longer called by [Devices]); the NUMA node is
    [int64( *d.CPUAffinity)]. *)
Definition buildDevice (d : nvml.Device) : Device :=
  {| ID := nvml.UUID d;
     Health := Healthy;
     Topology := match nvml.CPUAffinity d with
                 | Some node => Some [int64 node]
                 | None => None
                 end;
     Path := nvml.Path d |}.

End Plugin.

(** ** Health checking *)

Definition envDisableHealthChecks : string := "DP_DISABLE_HEALTHCHECKS".

Definition allHealthChecks : string := "xids".

(** What [checkHealth] does to the outside, in order. *)
Inductive Action : Type :=
| OpenEventSet
| RegisterEvent (etype : Z) (gpu : string)
| WaitForEvent (timeout : Z)
| SendUnhealthy (d : Device)
| CloseEventSet.

(** What one round of the monitor loop observes: the stop channel is
    ready, or it is not and [nvml.WaitForEvent] returns. *)
Inductive Observation : Type :=
| StopFired
| Waited (e : nvml.Event) (err : error).

(** How a run ends: [Running] is a loop that has consumed every
    observation it was given and is still going. *)
Inductive Outcome : Type :=
| Returned
| Panicked
| Running.

Definition isNil {A : Type} (p : option A) : bool :=
  match p with
  | Some _ => false
  | None => true
  end.

Section HealthCheck.

Variable host : Host.

(** The first lines of [checkHealth]: is the Xid check switched off? *)
Definition healthChecksDisabled : bool :=
  let disableHealthChecks :=
    strings.ToLower (MapToLower host) (Getenv host envDisableHealthChecks) in
  let disableHealthChecks :=
    if String.eqb disableHealthChecks "all" then allHealthChecks
    else disableHealthChecks in
  strings.Contains disableHealthChecks "xids".

(** The GPU a device is registered for: the parent of a MIG UUID, or the
    identifier itself. *)
Definition registeredGpu (id : string) : string :=
  match nvml.ParseMigDeviceUUID (driver host) id with
  | ((gpu, _, _), None) => gpu
  | (_, Some _) => id
  end.

(** The registration loop; [false] is the panic of [check]. *)
Fixpoint registerDevices (devices : list Device) : list Action * bool :=
  match devices with
  | [] => ([], true)
  | d :: devices' =>
      let id := extractRealDeviceID (ID d) in
      let gpu := registeredGpu id in
      match nvml.RegisterEventForDevice (driver host) nvml.XidCriticalError gpu with
      | None =>
          let '(acts, ok) := registerDevices devices' in
          (RegisterEvent nvml.XidCriticalError gpu :: acts, ok)
      | Some msg =>
          if strings.HasSuffix msg "Not Supported"
          then
            let '(acts, ok) := registerDevices devices' in
            (RegisterEvent nvml.XidCriticalError gpu :: SendUnhealthy d :: acts, ok)
          else ([RegisterEvent nvml.XidCriticalError gpu], false)
      end
  end.

(** The triple a monitored device is compared with. *)
Definition deviceTriple (d : Device) : string * Z * Z :=
  let id := extractRealDeviceID (ID d) in
  match nvml.ParseMigDeviceUUID (driver host) id with
  | (triple, None) => triple
  | (_, Some _) => (id, 4294967295, 4294967295)
  end.

(** [gpu == *e.UUID && gi == *e.GpuInstanceId && ci == *e.ComputeInstanceId]
    with Go's short-circuit evaluation; [None] is the panic of a nil
    dereference. *)
Definition eventMatches (uuid : string) (e : nvml.Event) (triple : string * Z * Z)
  : option bool :=
  let '(gpu, gi, ci) := triple in
  if negb (String.eqb gpu uuid) then Some false
  else
    match nvml.GpuInstanceId e with
    | None => None
    | Some egi =>
        if negb (gi =? egi) then Some false
        else
          match nvml.ComputeInstanceId e with
          | None => None
          | Some eci => Some (ci =? eci)
          end
    end.

(** The last loop of the monitor: the devices sent, and [false] if a nil
    pointer stopped it. *)
Fixpoint matchDevices (uuid : string) (e : nvml.Event) (devices : list Device)
  : list Device * bool :=
  match devices with
  | [] => ([], true)
  | d :: devices' =>
      match eventMatches uuid e (deviceTriple d) with
      | None => ([], false)
      | Some hit =>
          let '(sent, ok) := matchDevices uuid e devices' in
          (if hit then d :: sent else sent, ok)
      end
  end.

(** One round of the monitor loop after [nvml.WaitForEvent] has returned
    [(e, err)]: the devices written to [unhealthy], and whether the loop
    goes on. *)
Definition handleEvent (devices : list Device) (e : nvml.Event) (err : error)
  : list Device * bool :=
  if negb (isNil err) && negb (nvml.Etype e =? nvml.XidCriticalError)
  then ([], true)
  else if (nvml.Edata e =? 31) || (nvml.Edata e =? 43) || (nvml.Edata e =? 45)
  then ([], true)
  else
    match nvml.EventUUID e with
    | None => (devices, true)
    | Some uuid =>
        if (String.length uuid =? 0)%nat then (devices, true)
        else matchDevices uuid e devices
    end.

(** [for { select { case <-stop: return; default: } ... }] *)
Fixpoint monitorLoop (devices : list Device) (script : list Observation)
  : list Action * Outcome :=
  match script with
  | [] => ([], Running)
  | StopFired :: _ => ([], Returned)
  | Waited e err :: script' =>
      let '(sent, ok) := handleEvent devices e err in
      if ok then
        let '(acts, out) := monitorLoop devices script' in
        (WaitForEvent 5000 :: map SendUnhealthy sent ++ acts, out)
      else (WaitForEvent 5000 :: map SendUnhealthy sent, Panicked)
  end.

(** The deferred [nvml.DeleteEventSet] runs when the function is left. *)
Definition deferred (out : Outcome) : list Action :=
  match out with
  | Running => []
  | Returned | Panicked => [CloseEventSet]
  end.

Definition checkHealth (devices : list Device) (script : list Observation)
  : list Action * Outcome :=
  if healthChecksDisabled then ([], Returned)
  else
    let '(registered, ok) := registerDevices devices in
    if ok then
      let '(acts, out) := monitorLoop devices script in
      (OpenEventSet :: registered ++ acts ++ deferred out, out)
    else (OpenEventSet :: registered ++ deferred Panicked, Panicked).

(** The notifications among the actions of a run. *)
Fixpoint unhealthyOf (acts : list Action) : list Device :=
  match acts with
  | [] => []
  | SendUnhealthy d :: acts' => d :: unhealthyOf acts'
  | _ :: acts' => unhealthyOf acts'
  end.

End HealthCheck.

(** ** The [ResourceManager] interface and its two implementations *)

Class ResourceManager (T : Type) : Type := {
  Devices : string -> Host -> T -> M (list Device);
  CheckHealth : Host -> T -> list Device -> list Observation -> list Action * Outcome
}.

#[export] Instance GpuDeviceManager_ResourceManager : ResourceManager GpuDeviceManager := {
  Devices := GpuDeviceManager_Devices;
  CheckHealth := fun host _ => checkHealth host
}.

#[export] Instance MigDeviceManager_ResourceManager : ResourceManager MigDeviceManager := {
  Devices := MigDeviceManager_Devices;
  CheckHealth := fun host _ => checkHealth host
}.

(** ** The quantities the enumeration is specified by *)

(** The capacity baseline after an accelerator with memory [m] has been
    looked at: the first non-zero memory seen is kept. *)
Definition latched (mem : Z) (d : nvml.Device) : Z :=
  if mem =? 0
  then match nvml.Memory d with
       | Some m => uint m
       | None => mem
       end
  else mem.

(** [floor(C / 100) * (100 - R)] *)
Definition usableWhole (C R : Z) : Z := (C / 100) * (100 - R).

(** What the partitioned mode computes for a reservation in [(0, 100]]:
    the percentage is divided by 100 as an integer first. *)
Definition usablePartition (C R : Z) : Z := C * (1 - R / 100).

(** The fractional formula [C * (1 - R / 100)], for the pairs on which
    it is a whole number. *)
Definition fractionalShare (C R : Z) : Z := C * (100 - R) / 100.

Section Expected.

Variable host : Host.

Definition migEnabledOn (d : nvml.Device) : bool :=
  fst (nvml.IsMigEnabled (driver host) d).

Definition migsOf (d : nvml.Device) : list nvml.Device :=
  fst (nvml.GetMigDevices (driver host) d).

(** The enumeration loop seen from outside: every accelerator adds a
    block of virtual devices that depends on the baseline latched so far. *)
Fixpoint concatBlocks (block : Z -> nvml.Device -> list Device) (mem : Z)
  (ds : list nvml.Device) : list Device :=
  match ds with
  | [] => []
  | d :: ds' => block (latched mem d) d ++ concatBlocks block (latched mem d) ds'
  end.

(** The block of an accelerator in whole-device mode. *)
Definition wholeDeviceBlock (g : GpuDeviceManager) (R : Z) (C : Z) (d : nvml.Device)
  : list Device :=
  if migEnabledOn d && skipMigEnabledGPUs g then []
  else map (fakeDevice d) (uintRange (usableWhole C R)).

Definition wholeDeviceSlices (g : GpuDeviceManager) (R : Z) (mem : Z)
  (ds : list nvml.Device) : list Device :=
  concatBlocks (wholeDeviceBlock g R) mem ds.

Definition matchingMigs (m : MigDeviceManager) (d : nvml.Device) : list nvml.Device :=
  filter (fun mig => MatchesResource (strategy m) mig (resource m)) (migsOf d).

(** The block of an accelerator in partitioned mode: one run of slices
    per matching MIG device. *)
Definition partitionBlock (m : MigDeviceManager) (R : Z) (C : Z) (d : nvml.Device)
  : list Device :=
  if migEnabledOn d
  then flat_map (fun _ => map (fakeDevice d) (uintRange (usablePartition C R)))
                (matchingMigs m d)
  else [].

Definition partitionSlices (m : MigDeviceManager) (R : Z) (mem : Z)
  (ds : list nvml.Device) : list Device :=
  concatBlocks (partitionBlock m R) mem ds.

(** The baseline in force when the accelerator at position [k] is sliced. *)
Definition baselineAt (mem : Z) (ds : list nvml.Device) (k : nat) : Z :=
  fold_left latched (firstn (S k) ds) mem.

(** An enumeration on which no driver call fails and no pointer is nil. *)
Record Enumerates (ds : list nvml.Device) : Prop := {
  count_ok : nvml.GetDeviceCount (driver host) = (Z.of_nat (List.length ds), None);
  device_ok : forall k d, nth_error ds k = Some d ->
                nvml.NewDevice (driver host) (Z.of_nat k) = (d, None);
  path_ok : forall d, In d ds -> snd (ScanNodeIndex host (nvml.Path d)) = None;
  memory_ok : forall d, In d ds -> nvml.Memory d <> None;
  mig_mode_ok : forall d, In d ds -> snd (nvml.IsMigEnabled (driver host) d) = None
}.

(** The MIG devices of every MIG-enabled accelerator can be listed. *)
Definition ListsPartitions (ds : list nvml.Device) : Prop :=
  forall d, In d ds -> migEnabledOn d = true ->
    snd (nvml.GetMigDevices (driver host) d) = None.

(** The reservation variable [name] holds the percentage [R]. *)
Definition ReservationIs (name : string) (R : Z) : Prop :=
  strconv.Atoi (Getenv host name) = Some R /\ 0 < R <= 100.

End Expected.

(** Equality of two (GPU, GPU instance, compute instance) triples. *)
Definition tripleEqb (a b : string * Z * Z) : bool :=
  let '(gpu1, gi1, ci1) := a in
  let '(gpu2, gi2, ci2) := b in
  String.eqb gpu1 gpu2 && (gi1 =? gi2) && (ci1 =? ci2).

(** Is [code] one of the Xid codes of application errors? *)
Definition applicationXid (code : Z) : bool :=
  (code =? 31) || (code =? 43) || (code =? 45).

(** ** Concrete hosts *)

Fixpoint lookupEnv (vars : list (string * string)) (name : string) : string :=
  match vars with
  | [] => EmptyString
  | (k, v) :: vars' => if String.eqb k name then v else lookupEnv vars' name
  end.

(** The scanner of the concrete hosts, [fmt.Sscanf] with the format
    ["/dev/nvidia%d"] and a [uint] operand on ASCII paths: the literal
    text must match; spaces before the number are skipped, a line feed
    there is an error; the number is the longest run of digits and
    underscores, must not be empty, must hold no underscore, and must fit
    64 bits; what follows the number is not looked at. *)
Definition isBlank (c : ascii) : bool :=
  let n := nat_of_ascii c in
  (n =? 32)%nat || (n =? 9)%nat || (n =? 11)%nat || (n =? 12)%nat || (n =? 13)%nat.

Fixpoint skipBlanks (s : string) : string :=
  match s with
  | String c s' => if isBlank c then skipBlanks s' else s
  | EmptyString => s
  end.

Definition isNumberByte (c : ascii) : bool :=
  let n := nat_of_ascii c in
  ((48 <=? n) && (n <=? 57))%nat || (n =? 95)%nat.

Fixpoint numberToken (s : string) : string :=
  match s with
  | String c s' => if isNumberByte c then String c (numberToken s') else EmptyString
  | EmptyString => EmptyString
  end.

Definition scanDevNvidia (path : string) : Z * error :=
  if strings.HasPrefix path "/dev/nvidia"
  then
    match skipBlanks (strings.dropBytes 11 path) with
    | EmptyString => (0, Some "unexpected EOF")
    | String c rest =>
        if (nat_of_ascii c =? 10)%nat then (0, Some "unexpected newline")
        else
          match numberToken (String c rest) with
          | EmptyString => (0, Some "expected integer")
          | String _ _ as tok =>
              match strconv.parseUnsigned tok with
              | Some id =>
                  if id <? uint_modulus then (id, None)
                  else (0, Some "value out of range")
              | None => (0, Some "invalid syntax")
              end
          end
    end
  else (0, Some "input does not match format").

(** The lower-casing of the concrete hosts outside ASCII, on the runes
    that occur in their directives: the ASCII letters, and U+0130 (the
    bytes 196, 176), which [unicode.ToLower] maps to the letter [i]. *)
Fixpoint lowerDirectiveRunes (s : string) : string :=
  match s with
  | EmptyString => EmptyString
  | String c s' =>
      match s' with
      | String c' s'' =>
          if ((nat_of_ascii c =? 196) && (nat_of_ascii c' =? 176))%nat
          then String "i" (lowerDirectiveRunes s'')
          else String (strings.lowerByte c) (lowerDirectiveRunes s')
      | EmptyString => String (strings.lowerByte c) EmptyString
      end
  end.

(** The text of the error of [strconv.Atoi] on the concrete hosts, for
    reservations written in printable ASCII without quotes or
    backslashes: the error is one of syntax unless the digits, read from
    the left, leave 64 bits or the value leaves the range of [int]. *)
Fixpoint leavesRange (acc : Z) (s : string) : bool :=
  match s with
  | EmptyString => true
  | String c s' =>
      match strconv.digitOf c with
      | None => false
      | Some d =>
          if (1844674407370955162 <=? acc) || (uint_modulus <=? acc * 10 + d)
          then true
          else leavesRange (acc * 10 + d) s'
      end
  end.

Definition atoiErrorText (s : string) : string :=
  let digits :=
    match s with
    | String "-" s' => s'
    | String "+" s' => s'
    | _ => s
    end in
  let quote := String (ascii_of_nat 34) EmptyString in
  "strconv.Atoi: parsing " ++ quote ++ s ++ quote
  ++ (match digits with
      | EmptyString => ": invalid syntax"
      | String _ _ =>
          if leavesRange 0 digits then ": value out of range" else ": invalid syntax"
      end).

(** A parser of MIG device UUIDs of the form [MIG-GPU-<uuid>/<gi>/<ci>]. *)
Definition parseMigUUID (mig : string) : (string * Z * Z) * error :=
  let failed := ((EmptyString, 0, 0), Some "Unable to parse UUID as MIG device") in
  if strings.HasPrefix mig "MIG-"
  then match strings.Split (strings.dropBytes 4 mig) "/" with
       | [gpu; gi; ci] =>
           if strings.HasPrefix gpu "GPU-"
           then match strconv.Atoi gi, strconv.Atoi ci with
                | Some g, Some c => ((gpu, uint g, uint c), None)
                | _, _ => failed
                end
           else failed
       | _ => failed
       end
  else failed.

Definition noDevice : nvml.Device :=
  {| nvml.UUID := EmptyString; nvml.Path := EmptyString;
     nvml.Memory := None; nvml.CPUAffinity := None |}.

(** A machine described by its accelerators, each with its MIG mode and
    its MIG devices. *)
Definition Fleet : Type := list (nvml.Device * bool * list nvml.Device).

Fixpoint fleetEntry (fleet : Fleet) (uuid : string) : option (bool * list nvml.Device) :=
  match fleet with
  | [] => None
  | (d, mig, migs) :: fleet' =>
      if String.eqb (nvml.UUID d) uuid then Some (mig, migs)
      else fleetEntry fleet' uuid
  end.

Definition fleetBinding (fleet : Fleet) : nvml.Binding :=
  {| nvml.GetDeviceCount := (Z.of_nat (List.length fleet), None);
     nvml.NewDevice := fun i =>
       match nth_error fleet (Z.to_nat i) with
       | Some (d, _, _) => (d, None)
       | None => (noDevice, Some "Invalid Argument")
       end;
     nvml.IsMigEnabled := fun d =>
       match fleetEntry fleet (nvml.UUID d) with
       | Some (mig, _) => (mig, None)
       | None => (false, Some "Not Found")
       end;
     nvml.GetMigDevices := fun d =>
       match fleetEntry fleet (nvml.UUID d) with
       | Some (_, migs) => (migs, None)
       | None => ([], Some "Not Found")
       end;
     nvml.ParseMigDeviceUUID := parseMigUUID;
     nvml.RegisterEventForDevice := fun _ _ => None |}.

Definition fleetHost (vars : list (string * string)) (fleet : Fleet) : Host :=
  {| Getenv := lookupEnv vars;
     ScanNodeIndex := scanDevNvidia;
     MapToLower := lowerDirectiveRunes;
     AtoiErrorText := atoiErrorText;
     driver := fleetBinding fleet |}.

(** The name used for the reservation variable on the concrete hosts. *)
Definition reservedVar : string := "DP_RESERVED_MEM_PER_GPU".

Definition gpuA (memory : Z) : nvml.Device :=
  {| nvml.UUID := "GPU-8dcd427f-483b-b48f-d7e5-75fb19a52b76";
     nvml.Path := "/dev/nvidia0";
     nvml.Memory := Some memory;
     nvml.CPUAffinity := Some 0 |}.

Definition migOf (gi ci : string) : nvml.Device :=
  {| nvml.UUID := "MIG-GPU-8dcd427f-483b-b48f-d7e5-75fb19a52b76/" ++ gi ++ "/" ++ ci;
     nvml.Path := "/dev/nvidia0";
     nvml.Memory := Some 4864;
     nvml.CPUAffinity := None |}.

(** One whole GPU with the given memory, and the given reservation. *)
Definition wholeHost (memory : Z) (reservation : string) : Host :=
  fleetHost [(reservedVar, reservation)] [(gpuA memory, false, [])].

(** One MIG-enabled GPU with two MIG devices. *)
Definition migHost (memory : Z) (reservation : string) : Host :=
  fleetHost [(reservedVar, reservation)]
            [(gpuA memory, true, [migOf "1" "0"; migOf "2" "0"])].

Definition anyMig : MigStrategy := {| MatchesResource := fun _ _ => true |}.

(** Selects the MIG devices whose UUID ends with the resource name. *)
Definition bySuffix : MigStrategy :=
  {| MatchesResource := fun mig res => strings.HasSuffix (nvml.UUID mig) res |}.

Definition healthHost (directive : string) : Host :=
  fleetHost [(envDisableHealthChecks, directive)] [(gpuA 8000, false, [])].

Definition slice (realID : string) (j : Z) : Device :=
  {| ID := generateFakeDeviceID realID j; Health := Healthy;
     Topology := None; Path := "/dev/nvidia0" |}.

Definition xidEvent (uuid : option string) (gi ci : option Z) (etype edata : Z)
  : nvml.Event :=
  {| nvml.EventUUID := uuid; nvml.GpuInstanceId := gi;
     nvml.ComputeInstanceId := ci; nvml.Etype := etype; nvml.Edata := edata |}.

(** ** Further notions used by the properties *)

(** A real identifier the decoder recovers: it neither contains the
    separator nor ends with its first two bytes. *)
Definition cleanID (realID : string) : Prop :=
  strings.Contains realID separator = false
  /\ strings.HasSuffix realID "-_" = false.

(** Every accelerator of [ds] answers the per-device calls of the
    enumeration loops without an error or a nil pointer. *)
Definition AcceleratorsOk (host : Host) (ds : list nvml.Device) : Prop :=
  (forall k d, nth_error ds k = Some d ->
     nvml.NewDevice (driver host) (Z.of_nat k) = (d, None))
  /\ (forall d, In d ds -> snd (ScanNodeIndex host (nvml.Path d)) = None)
  /\ (forall d, In d ds -> nvml.Memory d <> None)
  /\ (forall d, In d ds -> snd (nvml.IsMigEnabled (driver host) d) = None).

(** [x] is a virtual device cut from the accelerator [d]. *)
Definition SlicedFrom (x : Device) (d : nvml.Device) : Prop :=
  Health x = Healthy
  /\ Topology x = None
  /\ Path x = nvml.Path d
  /\ exists j, 0 <= j /\ ID x = generateFakeDeviceID (nvml.UUID d) j.

(** [d] is what the driver returns, without error, for an index below the
    device count. *)
Definition Enumerated (host : Host) (d : nvml.Device) : Prop :=
  exists i, 0 <= i < fst (nvml.GetDeviceCount (driver host))
            /\ nvml.NewDevice (driver host) i = (d, None).

(** Is the accelerator left out by whole-device mode? *)
Definition skippedBy (host : Host) (g : GpuDeviceManager) (d : nvml.Device) : bool :=
  migEnabledOn host d && skipMigEnabledGPUs g.

(** What registering a monitored device answers. *)
Definition registrationError (host : Host) (d : Device) : error :=
  nvml.RegisterEventForDevice (driver host) nvml.XidCriticalError
    (registeredGpu host (extractRealDeviceID (ID d))).

Definition notSupported (err : error) : bool :=
  match err with
  | Some msg => strings.HasSuffix msg "Not Supported"
  | None => false
  end.

Definition fatalError (err : error) : bool :=
  match err with
  | Some msg => negb (strings.HasSuffix msg "Not Supported")
  | None => false
  end.

Definition isOpenEventSet (a : Action) : bool :=
  match a with
  | OpenEventSet => true
  | _ => false
  end.

Definition isCloseEventSet (a : Action) : bool :=
  match a with
  | CloseEventSet => true
  | _ => false
  end.

Definition isWaitForEvent (a : Action) : bool :=
  match a with
  | WaitForEvent _ => true
  | _ => false
  end.

(** A round of the monitor loop that is skipped: the wait failed on an
    event that is not a critical error, or the event is an application
    error. *)
Definition quietObservation (o : Observation) : bool :=
  match o with
  | StopFired => true
  | Waited e err =>
      (negb (isNil err) && negb (nvml.Etype e =? nvml.XidCriticalError))
      || applicationXid (nvml.Edata e)
  end.

Definition isStopFired (o : Observation) : bool :=
  match o with
  | StopFired => true
  | Waited _ _ => false
  end.

(** The waits a script allows before the stop channel is ready. *)
Fixpoint waitsBeforeStop (script : list Observation) : nat :=
  match script with
  | [] => O
  | StopFired :: _ => O
  | Waited _ _ :: script' => S (waitsBeforeStop script')
  end.

(** The GPUs registered among the actions of a run. *)
Fixpoint registeredOf (acts : list Action) : list string :=
  match acts with
  | [] => []
  | RegisterEvent _ gpu :: acts' => gpu :: registeredOf acts'
  | _ :: acts' => registeredOf acts'
  end.

(** The GPU of the triple a monitored device is compared with. *)
Definition deviceGpu (host : Host) (d : Device) : string :=
  fst (fst (deviceTriple host d)).

(** The zero [nvml.Event] that the binding returns with an error. *)
Definition noEvent : nvml.Event :=
  {| nvml.EventUUID := None; nvml.GpuInstanceId := None;
     nvml.ComputeInstanceId := None; nvml.Etype := 0; nvml.Edata := 0 |}.

(** More concrete hosts. *)

Definition gpuB (memory : Z) : nvml.Device :=
  {| nvml.UUID := "GPU-5a1b9c3e-0f2d-4e6a-9b7c-1d2e3f4a5b6c";
     nvml.Path := "/dev/nvidia1";
     nvml.Memory := Some memory;
     nvml.CPUAffinity := Some 1 |}.

(** Two whole GPUs, the second one MIG-enabled or not. *)
Definition pairHost (memoryA memoryB : Z) (migB : bool) (reservation : string) : Host :=
  fleetHost [(reservedVar, reservation)]
            [(gpuA memoryA, false, []); (gpuB memoryB, migB, [])].

(** A host whose driver announces one accelerator more than it can
    open. *)
Definition overcountHost (memory : Z) (reservation : string) : Host :=
  let h := wholeHost memory reservation in
  {| Getenv := Getenv h;
     ScanNodeIndex := ScanNodeIndex h;
     MapToLower := MapToLower h;
     AtoiErrorText := AtoiErrorText h;
     driver :=
       {| nvml.GetDeviceCount := (2, None);
          nvml.NewDevice := nvml.NewDevice (driver h);
          nvml.IsMigEnabled := nvml.IsMigEnabled (driver h);
          nvml.GetMigDevices := nvml.GetMigDevices (driver h);
          nvml.ParseMigDeviceUUID := nvml.ParseMigDeviceUUID (driver h);
          nvml.RegisterEventForDevice :=
            nvml.RegisterEventForDevice (driver h) |} |}.

(** A host on which an old GPU does not support events and a broken one
    cannot be registered at all. *)
Definition registrationHost : Host :=
  let h := healthHost "" in
  {| Getenv := Getenv h;
     ScanNodeIndex := ScanNodeIndex h;
     MapToLower := MapToLower h;
     AtoiErrorText := AtoiErrorText h;
     driver :=
       {| nvml.GetDeviceCount := nvml.GetDeviceCount (driver h);
          nvml.NewDevice := nvml.NewDevice (driver h);
          nvml.IsMigEnabled := nvml.IsMigEnabled (driver h);
          nvml.GetMigDevices := nvml.GetMigDevices (driver h);
          nvml.ParseMigDeviceUUID := nvml.ParseMigDeviceUUID (driver h);
          nvml.RegisterEventForDevice := fun _ gpu =>
            if String.eqb gpu "GPU-old" then Some "nvml: Not Supported"
            else if String.eqb gpu "GPU-bad" then Some "nvml: Unknown Error"
            else None |} |}.

(** * Properties *)

(** ** Strings *)

Lemma HasPrefix_nil_false (pre : string) :
  pre <> EmptyString -> strings.HasPrefix EmptyString pre = false.
Proof. destruct pre; [congruence | reflexivity]. Qed.

Lemma Index_nil_separator : strings.Index EmptyString separator = None.
Proof. reflexivity. Qed.

Lemma Index_cons_None (c : ascii) (s sub : string) :
  strings.Index (String c s) sub = None -> strings.Index s sub = None.
Proof.
  cbn [strings.Index].
  destruct (strings.HasPrefix (String c s) sub); [discriminate |].
  destruct (strings.Index s sub); [discriminate | reflexivity].
Qed.

Lemma Contains_cons_false (c : ascii) (s sub : string) :
  strings.Contains (String c s) sub = false ->
  strings.HasPrefix (String c s) sub = false /\ strings.Contains s sub = false.
Proof.
  unfold strings.Contains. cbn [strings.Index].
  destruct (strings.HasPrefix (String c s) sub); [discriminate |].
  destruct (strings.Index s sub); [discriminate | auto].
Qed.

Lemma dropBytes_length_le (n : nat) (s : string) :
  (String.length s <= n)%nat -> strings.dropBytes n s = EmptyString.
Proof.
  revert s; induction n as [| n IH]; intros [| c s] Hlen; cbn in *;
    try reflexivity; try lia.
  apply IH; lia.
Qed.

Lemma HasSuffix_cons (c : ascii) (s suffix : string) :
  strings.HasSuffix s suffix = true -> strings.HasSuffix (String c s) suffix = true.
Proof.
  unfold strings.HasSuffix. intros H.
  apply andb_true_iff in H as [Hlen Heq].
  apply Nat.leb_le in Hlen.
  apply andb_true_iff; split.
  - apply Nat.leb_le. cbn [String.length]. lia.
  - replace (String.length (String c s) - String.length suffix)%nat
      with (S (String.length s - String.length suffix))
      by (cbn [String.length]; lia).
    exact Heq.
Qed.

Lemma substring_prefix_app (r t : string) :
  String.substring 0 (String.length r) (r ++ t) = r.
Proof.
  induction r as [| c r IH]; cbn.
  - destruct t; reflexivity.
  - now rewrite IH.
Qed.

(** A piece always comes out of a split at the separator. *)
Lemma Split_separator_nonempty (s : string) : strings.Split s separator <> [].
Proof.
  unfold strings.Split, separator.
  destruct (String.length s); cbn [strings.genSplit]; [discriminate |].
  destruct (strings.Index s "-_-"); discriminate.
Qed.

Lemma dropBytes_length (n : nat) (s : string) :
  String.length (strings.dropBytes n s) = (String.length s - n)%nat.
Proof.
  revert s; induction n as [| n IH]; intros [| c s]; cbn; try reflexivity.
  apply IH.
Qed.

Lemma HasPrefix_length (s pre : string) :
  strings.HasPrefix s pre = true -> (String.length pre <= String.length s)%nat.
Proof.
  revert s; induction pre as [| a pre IH]; intros s H; cbn in *; [lia |].
  destruct s as [| b s]; [discriminate |].
  apply andb_true_iff in H as [_ H]. apply IH in H. cbn. lia.
Qed.

Lemma Index_bound (s sub : string) (m : nat) :
  strings.Index s sub = Some m ->
  (m + String.length sub <= String.length s)%nat.
Proof.
  revert m; induction s as [| c s IH]; intros m; cbn [strings.Index].
  - destruct (strings.HasPrefix EmptyString sub) eqn:E; [| discriminate].
    intros [= <-]. now apply HasPrefix_length in E.
  - destruct (strings.HasPrefix (String c s) sub) eqn:E.
    + intros [= <-]. now apply HasPrefix_length in E.
    + destruct (strings.Index s sub) as [m' |]; [| discriminate].
      intros [= <-]. specialize (IH m' eq_refl). cbn. lia.
Qed.

(** The rounds given to [genSplit] are enough: more of them change
    nothing. *)
Lemma genSplit_rounds_enough (sep : string) :
  sep <> EmptyString ->
  forall (n k : nat) (s : string),
    (String.length s <= n)%nat -> (String.length s <= k)%nat ->
    strings.genSplit n s sep = strings.genSplit k s sep.
Proof.
  intros Hsep. induction n as [| n IH]; intros k s Hn Hk.
  - destruct s; [| cbn in Hn; lia].
    destruct k; cbn; [reflexivity |].
    now rewrite HasPrefix_nil_false.
  - destruct k as [| k].
    + destruct s; [| cbn in Hk; lia].
      cbn. now rewrite HasPrefix_nil_false.
    + cbn [strings.genSplit].
      destruct (strings.Index s sep) as [m |] eqn:E; [| reflexivity].
      f_equal. apply Index_bound in E.
      assert (0 < String.length sep)%nat by (destruct sep; [congruence | cbn; lia]).
      apply IH; rewrite dropBytes_length; lia.
Qed.

Lemma extractRealDeviceID_at_first_separator (s : string) (m : nat) :
  strings.Index s separator = Some m ->
  extractRealDeviceID s = String.substring 0 m s.
Proof.
  intros H. unfold extractRealDeviceID, strings.Split, separator in *.
  destruct s as [| c s]; [discriminate |].
  cbn [String.length strings.genSplit]. now rewrite H.
Qed.

Lemma extractRealDeviceID_no_separator (s : string) :
  strings.Index s separator = None -> extractRealDeviceID s = s.
Proof.
  intros H. unfold extractRealDeviceID, strings.Split, separator in *.
  destruct (String.length s); cbn [strings.genSplit]; [reflexivity |].
  now rewrite H.
Qed.

(** The first separator of a fake identifier is the one the encoder wrote,
    provided the real identifier neither contains one nor ends with the
    two bytes that would complete one. *)
Lemma Index_separator_encoded (r tail : string) :
  strings.Contains r separator = false ->
  strings.HasSuffix r "-_" = false ->
  strings.Index (r ++ separator ++ tail) separator = Some (String.length r).
Proof.
  induction r as [| c r IH]; intros Hc Hs.
  - unfold separator. cbn. reflexivity.
  - apply Contains_cons_false in Hc as [Hp Hc].
    assert (Hs' : strings.HasSuffix r "-_" = false).
    { destruct (strings.HasSuffix r "-_") eqn:E; [| reflexivity].
      apply (HasSuffix_cons c) in E. congruence. }
    specialize (IH Hc Hs').
    change (String c r ++ separator ++ tail) with (String c (r ++ separator ++ tail)).
    cbn [strings.Index String.length]. rewrite IH. cbn [option_map].
    replace (strings.HasPrefix (String c (r ++ separator ++ tail)) separator)
      with false; [reflexivity |].
    symmetry. unfold separator in *.
    destruct r as [| x [| y r]]; cbn [strings.HasPrefix String.append] in *.
    + destruct (Ascii.eqb "-" c); reflexivity.
    + destruct (Ascii.eqb_spec "-" c) as [<- |]; [| reflexivity].
      destruct (Ascii.eqb_spec "_" x) as [<- |]; [| reflexivity].
      vm_compute in Hs. discriminate Hs.
    + exact Hp.
Qed.

(** ** Unsigned arithmetic *)

Lemma uint_small (z : Z) : 0 <= z < uint_modulus -> uint z = z.
Proof. intros H. unfold uint. now apply Z.mod_small. Qed.

Lemma uint_range (z : Z) : 0 <= uint z < uint_modulus.
Proof. unfold uint. apply Z.mod_pos_bound. reflexivity. Qed.

Lemma latched_range (mem : Z) (d : nvml.Device) :
  0 <= mem < uint_modulus -> 0 <= latched mem d < uint_modulus.
Proof.
  intros H. unfold latched.
  destruct (mem =? 0); [| exact H].
  destruct (nvml.Memory d); [apply uint_range | exact H].
Qed.

(** The whole-device product never wraps around. *)
Lemma usableWhole_no_wrap (C R : Z) :
  0 <= C < uint_modulus -> 0 < R <= 100 ->
  uint ((C / 100) * uint (100 - R)) = usableWhole C R.
Proof.
  intros HC HR. unfold usableWhole, uint_modulus in *.
  rewrite (uint_small (100 - R)) by (unfold uint_modulus; lia).
  apply uint_small. unfold uint_modulus.
  assert (0 <= C / 100 <= 184467440737095516).
  { split; [apply Z.div_pos; lia |].
    apply Z.lt_succ_r, Z.div_lt_upper_bound; lia. }
  nia.
Qed.

(** The partitioned-mode product: the integer quotient [R / 100] is 0
    below 100 and 1 at 100. *)
Lemma usablePartition_cases (C R : Z) :
  0 < R <= 100 ->
  usablePartition C R = if R <? 100 then C else 0.
Proof.
  intros HR. unfold usablePartition.
  destruct (R <? 100) eqn:E.
  - apply Z.ltb_lt in E. rewrite Z.div_small by lia. lia.
  - apply Z.ltb_ge in E. replace R with 100 by lia.
    change (100 / 100) with 1. lia.
Qed.

Lemma usablePartition_no_wrap (C R : Z) :
  0 <= C < uint_modulus -> 0 < R <= 100 ->
  uint (C * uint (1 - R / 100)) = usablePartition C R.
Proof.
  intros HC HR. rewrite usablePartition_cases by exact HR.
  destruct (R <? 100) eqn:E.
  - apply Z.ltb_lt in E. rewrite Z.div_small by lia.
    rewrite (uint_small (1 - 0)) by (unfold uint_modulus; lia).
    rewrite Z.mul_1_r. now apply uint_small.
  - apply Z.ltb_ge in E. replace R with 100 by lia.
    change (uint (1 - 100 / 100)) with 0. rewrite Z.mul_0_r. reflexivity.
Qed.

Lemma uintRange_length (n : Z) : List.length (uintRange n) = Z.to_nat n.
Proof. unfold uintRange. now rewrite length_map, length_seq. Qed.

Lemma uintRange_spec (n j : Z) : In j (uintRange n) <-> 0 <= j < n.
Proof.
  unfold uintRange. rewrite in_map_iff. split.
  - intros (k & <- & Hk). apply in_seq in Hk. lia.
  - intros H. exists (Z.to_nat j). split; [lia |]. apply in_seq. lia.
Qed.

(** ** Running monadic code *)

Lemma run_bind {A B : Type} (m : M A) (k : A -> M B) (mem : Z) (a : A) (mem' : Z) :
  m mem = Ok (a, mem') -> bind m k mem = k a mem'.
Proof. intros H. unfold bind. now rewrite H. Qed.

Lemma run_bind_panic {A B : Type} (m : M A) (k : A -> M B) (mem : Z) (msg : string) :
  m mem = Panic msg -> bind m k mem = Panic msg.
Proof. intros H. unfold bind. now rewrite H. Qed.

Lemma run_ret {A : Type} (a : A) (mem : Z) : ret a mem = Ok (a, mem).
Proof. reflexivity. Qed.

Lemma run_check_nil (mem : Z) : check None mem = Ok (tt, mem).
Proof. reflexivity. Qed.

Lemma run_getGPUMemory (mem : Z) : getGPUMemory mem = Ok (mem, mem).
Proof. reflexivity. Qed.

(** Run the first statement of a sequence, given how it ends. *)
Ltac run_by tac := erewrite run_bind by tac.
Ltac run := run_by reflexivity.

(** ** Enumeration *)

Section Enumeration.

Variable name : string.
Variable host : Host.

Lemma getReservedMemPerGPU_ok (R mem : Z) :
  ReservationIs host name R ->
  getReservedMemPerGPU name host mem = Ok (R, mem).
Proof.
  intros [Hparse HR]. unfold getReservedMemPerGPU. rewrite Hparse.
  replace (R >? 100) with false by (rewrite Z.gtb_ltb; symmetry; apply Z.ltb_ge; lia).
  replace (R <=? 0) with false by (symmetry; apply Z.leb_gt; lia).
  cbn. unfold ret. rewrite uint_small by (unfold uint_modulus; lia). reflexivity.
Qed.

Lemma latchGPUMemory_ok (d : nvml.Device) (mem : Z) :
  nvml.Memory d <> None ->
  latchGPUMemory d mem = Ok (tt, latched mem d).
Proof.
  intros Hm. unfold latchGPUMemory, latched, bind, getGPUMemory.
  destruct (mem =? 0); [| reflexivity].
  destruct (nvml.Memory d); [reflexivity | congruence].
Qed.

Lemma deref_ok {A : Type} (p : option A) (mem : Z) :
  p <> None -> exists v, p = Some v /\ deref p mem = Ok (v, mem).
Proof. destruct p as [v |]; [exists v; auto | congruence]. Qed.

(** One accelerator in whole-device mode. *)
Lemma gpuDevicesBody_ok (g : GpuDeviceManager) (i : Z) (d : nvml.Device)
  (devs : list Device) (R mem : Z) :
  nvml.NewDevice (driver host) i = (d, None) ->
  snd (ScanNodeIndex host (nvml.Path d)) = None ->
  nvml.Memory d <> None ->
  snd (nvml.IsMigEnabled (driver host) d) = None ->
  ReservationIs host name R ->
  0 <= mem < uint_modulus ->
  gpuDevicesBody name host g i devs mem
  = Ok ((devs ++ wholeDeviceBlock host g R (latched mem d) d)%list, latched mem d).
Proof.
  intros Hnew Hpath Hmem Hmig HR Hrange.
  unfold gpuDevicesBody, wholeDeviceBlock, migEnabledOn. rewrite Hnew.
  destruct (ScanNodeIndex host (nvml.Path d)) as [id e]; cbn in Hpath; subst e.
  destruct (nvml.IsMigEnabled (driver host) d) as [mig e]; cbn in Hmig; subst e.
  cbn [fst]. run. run.
  run_by ltac:(apply latchGPUMemory_ok; exact Hmem). run.
  destruct (mig && skipMigEnabledGPUs g).
  - rewrite app_nil_r. reflexivity.
  - run_by ltac:(apply getReservedMemPerGPU_ok; exact HR). run.
    destruct (deref_ok (nvml.Memory d) (latched mem d) Hmem) as (v & _ & Hv).
    run_by ltac:(exact Hv).
    unfold appendFakeDevices.
    rewrite usableWhole_no_wrap by (auto using latched_range || apply HR).
    reflexivity.
Qed.

Lemma migRange_spec (m : MigDeviceManager) (d : nvml.Device) (actual : Z)
  (migs : list nvml.Device) (devs : list Device) :
  migRange m d actual migs devs
  = (devs ++ flat_map (fun _ => map (fakeDevice d) (uintRange actual))
                      (filter (fun mig => MatchesResource (strategy m) mig (resource m))
                              migs))%list.
Proof.
  revert devs; induction migs as [| mig migs IH]; intros devs; cbn.
  - now rewrite app_nil_r.
  - destruct (MatchesResource (strategy m) mig (resource m)); cbn.
    + rewrite IH. unfold appendFakeDevices. now rewrite <- app_assoc.
    + apply IH.
Qed.

(** One accelerator in partitioned mode. *)
Lemma migDevicesBody_ok (m : MigDeviceManager) (i : Z) (d : nvml.Device)
  (devs : list Device) (R mem : Z) :
  nvml.NewDevice (driver host) i = (d, None) ->
  snd (ScanNodeIndex host (nvml.Path d)) = None ->
  nvml.Memory d <> None ->
  snd (nvml.IsMigEnabled (driver host) d) = None ->
  (migEnabledOn host d = true -> snd (nvml.GetMigDevices (driver host) d) = None) ->
  ReservationIs host name R ->
  0 <= mem < uint_modulus ->
  migDevicesBody name host m i devs mem
  = Ok ((devs ++ partitionBlock host m R (latched mem d) d)%list, latched mem d).
Proof.
  intros Hnew Hpath Hmem Hmig Hmigs HR Hrange.
  unfold migDevicesBody, partitionBlock, matchingMigs, migsOf, migEnabledOn in *.
  rewrite Hnew.
  destruct (ScanNodeIndex host (nvml.Path d)) as [id e]; cbn in Hpath; subst e.
  destruct (nvml.IsMigEnabled (driver host) d) as [mig e]; cbn in Hmig; subst e.
  cbn [fst] in *. run. run.
  destruct (deref_ok (nvml.Memory d) mem Hmem) as (v & _ & Hv).
  run_by ltac:(exact Hv).
  run_by ltac:(apply latchGPUMemory_ok; exact Hmem). run.
  destruct mig; cbn [negb].
  - destruct (nvml.GetMigDevices (driver host) d) as [migs e].
    cbn in Hmigs. rewrite (Hmigs eq_refl). cbn [fst]. run. run.
    run_by ltac:(apply getReservedMemPerGPU_ok; exact HR).
    rewrite usablePartition_no_wrap by (auto using latched_range || apply HR).
    rewrite migRange_spec. reflexivity.
  - rewrite app_nil_r. reflexivity.
Qed.

(** The loop over the accelerators, for a body that adds the block of each
    one and leaves the latched baseline behind. *)
Lemma forUint_blocks (body : Z -> list Device -> M (list Device))
  (block : Z -> nvml.Device -> list Device) (ds : list nvml.Device) :
  forall (i : Z) (devs : list Device) (mem : Z),
    (forall k d devs' mem', nth_error ds k = Some d ->
        0 <= mem' < uint_modulus ->
        body (i + Z.of_nat k) devs' mem'
        = Ok ((devs' ++ block (latched mem' d) d)%list, latched mem' d)) ->
    0 <= mem < uint_modulus ->
    forUint (List.length ds) i body devs mem
    = Ok ((devs ++ concatBlocks block mem ds)%list, fold_left latched ds mem).
Proof.
  induction ds as [| d ds IH]; intros i devs mem Hbody Hrange.
  - cbn. now rewrite app_nil_r.
  - cbn [List.length forUint concatBlocks fold_left].
    run_by ltac:(replace i with (i + Z.of_nat 0) by lia;
                 apply Hbody; [reflexivity | exact Hrange]).
    rewrite IH.
    + now rewrite <- app_assoc.
    + intros k d' devs' mem' Hk Hmem'.
      replace (i + 1 + Z.of_nat k) with (i + Z.of_nat (S k)) by lia.
      now apply Hbody.
    + now apply latched_range.
Qed.

Lemma concatBlocks_nth (block : Z -> nvml.Device -> list Device)
  (ds : list nvml.Device) :
  forall (mem : Z) (k : nat) (d : nvml.Device),
    nth_error ds k = Some d ->
    concatBlocks block mem ds
    = (concatBlocks block mem (firstn k ds)
       ++ block (baselineAt mem ds k) d
       ++ concatBlocks block (baselineAt mem ds k) (skipn (S k) ds))%list.
Proof.
  induction ds as [| a ds IH]; intros mem k d Hk.
  - destruct k; discriminate.
  - destruct k as [| k].
    + injection Hk as ->. reflexivity.
    + cbn in Hk. cbn [concatBlocks firstn skipn].
      rewrite (IH (latched mem a) k d Hk), <- app_assoc. reflexivity.
Qed.

Lemma baselineAt_range (mem : Z) (ds : list nvml.Device) (k : nat) :
  0 <= mem < uint_modulus -> 0 <= baselineAt mem ds k < uint_modulus.
Proof.
  unfold baselineAt. generalize (firstn (S k) ds) as l.
  intros l; revert mem; induction l as [| a l IH]; intros mem H; cbn.
  - exact H.
  - apply IH, latched_range, H.
Qed.

(** A successful enumeration in whole-device mode returns the blocks of
    the accelerators, in order. *)
Lemma GpuDeviceManager_Devices_run (g : GpuDeviceManager) (ds : list nvml.Device)
  (R mem : Z) :
  Enumerates host ds ->
  ReservationIs host name R ->
  0 <= mem < uint_modulus ->
  GpuDeviceManager_Devices name host g mem
  = Ok (wholeDeviceSlices host g R mem ds, fold_left latched ds mem).
Proof.
  intros [Hcount Hdev Hpath Hmem Hmig] HR Hrange.
  unfold GpuDeviceManager_Devices, wholeDeviceSlices. rewrite Hcount. run.
  rewrite Nat2Z.id.
  rewrite (forUint_blocks _ (wholeDeviceBlock host g R) ds); [reflexivity | | exact Hrange].
  intros k d devs' mem' Hk Hmem'.
  pose proof (nth_error_In _ _ Hk) as Hin. rewrite Z.add_0_l.
  apply gpuDevicesBody_ok; auto.
Qed.

(** The same in partitioned mode. *)
Lemma MigDeviceManager_Devices_run (m : MigDeviceManager) (ds : list nvml.Device)
  (R mem : Z) :
  Enumerates host ds ->
  ListsPartitions host ds ->
  ReservationIs host name R ->
  0 <= mem < uint_modulus ->
  MigDeviceManager_Devices name host m mem
  = Ok (partitionSlices host m R mem ds, fold_left latched ds mem).
Proof.
  intros [Hcount Hdev Hpath Hmem Hmig] Hmigs HR Hrange.
  unfold MigDeviceManager_Devices, partitionSlices. rewrite Hcount. run.
  rewrite Nat2Z.id.
  rewrite (forUint_blocks _ (partitionBlock host m R) ds); [reflexivity | | exact Hrange].
  intros k d devs' mem' Hk Hmem'.
  pose proof (nth_error_In _ _ Hk) as Hin. rewrite Z.add_0_l.
  apply migDevicesBody_ok; auto.
Qed.

End Enumeration.

(** The concrete hosts enumerate their fleets. *)
Lemma wholeHost_Enumerates (memory : Z) (reservation : string) :
  Enumerates (wholeHost memory reservation) [gpuA memory].
Proof.
  split.
  - reflexivity.
  - intros [| [| k]] d Hk; try discriminate. injection Hk as <-. reflexivity.
  - intros d [<- | []]. reflexivity.
  - intros d [<- | []]. discriminate.
  - intros d [<- | []]. reflexivity.
Qed.

Lemma migHost_Enumerates (memory : Z) (reservation : string) :
  Enumerates (migHost memory reservation) [gpuA memory].
Proof.
  split.
  - reflexivity.
  - intros [| [| k]] d Hk; try discriminate. injection Hk as <-. reflexivity.
  - intros d [<- | []]. reflexivity.
  - intros d [<- | []]. discriminate.
  - intros d [<- | []]. reflexivity.
Qed.

Lemma migHost_ListsPartitions (memory : Z) (reservation : string) :
  ListsPartitions (migHost memory reservation) [gpuA memory].
Proof. intros d [<- | []] _. reflexivity. Qed.

(** ** Health checking *)

Section Monitor.

Variable host : Host.

Lemma eventMatches_tripleEqb (x : string) (e : nvml.Event) (gi ci : Z)
  (t : string * Z * Z) :
  nvml.GpuInstanceId e = Some gi ->
  nvml.ComputeInstanceId e = Some ci ->
  eventMatches x e t = Some (tripleEqb t (x, gi, ci)).
Proof.
  intros Hgi Hci. destruct t as [[gpu g] c]. unfold eventMatches, tripleEqb.
  rewrite Hgi, Hci.
  destruct (String.eqb gpu x); cbn; [| reflexivity].
  destruct (g =? gi); reflexivity.
Qed.

(** With both instance identifiers present the last loop is a filter. *)
Lemma matchDevices_filter (x : string) (e : nvml.Event) (gi ci : Z)
  (devices : list Device) :
  nvml.GpuInstanceId e = Some gi ->
  nvml.ComputeInstanceId e = Some ci ->
  matchDevices host x e devices
  = (filter (fun d => tripleEqb (deviceTriple host d) (x, gi, ci)) devices, true).
Proof.
  intros Hgi Hci. induction devices as [| d devices IH]; cbn [matchDevices filter].
  - reflexivity.
  - rewrite (eventMatches_tripleEqb x e gi ci) by assumption. rewrite IH.
    reflexivity.
Qed.

Lemma handleEvent_application_error (devices : list Device) (e : nvml.Event)
  (err : error) :
  applicationXid (nvml.Edata e) = true ->
  handleEvent host devices e err = ([], true).
Proof.
  intros H. unfold handleEvent. unfold applicationXid in H. rewrite H.
  destruct (negb (isNil err) && negb (nvml.Etype e =? nvml.XidCriticalError));
    reflexivity.
Qed.

(** An event that passes both filters. *)
Lemma handleEvent_critical (devices : list Device) (e : nvml.Event) (err : error) :
  nvml.Etype e = nvml.XidCriticalError ->
  applicationXid (nvml.Edata e) = false ->
  handleEvent host devices e err
  = match nvml.EventUUID e with
    | None => (devices, true)
    | Some uuid =>
        if (String.length uuid =? 0)%nat then (devices, true)
        else matchDevices host uuid e devices
    end.
Proof.
  intros Ht Hd. unfold handleEvent. unfold applicationXid in Hd.
  rewrite Ht, Z.eqb_refl, Hd. cbn [negb]. rewrite andb_false_r. reflexivity.
Qed.

(** A failed wait whose event is not a critical error is skipped. *)
Lemma handleEvent_failed_wait (devices : list Device) (e : nvml.Event) (msg : string) :
  nvml.Etype e <> nvml.XidCriticalError ->
  handleEvent host devices e (Some msg) = ([], true).
Proof.
  intros Ht. unfold handleEvent.
  apply Z.eqb_neq in Ht. rewrite Ht. reflexivity.
Qed.

(** A wait that succeeds is not filtered by the type of its event. *)
Lemma handleEvent_successful_wait (devices : list Device) (e : nvml.Event) :
  applicationXid (nvml.Edata e) = false ->
  nvml.EventUUID e = None ->
  handleEvent host devices e None = (devices, true).
Proof.
  intros Hd Hu. unfold handleEvent. unfold applicationXid in Hd.
  cbn [isNil negb andb]. now rewrite Hd, Hu.
Qed.

Lemma monitorLoop_step (devices sent : list Device) (e : nvml.Event) (err : error)
  (script : list Observation) :
  handleEvent host devices e err = (sent, true) ->
  monitorLoop host devices (Waited e err :: script)
  = (WaitForEvent 5000 :: map SendUnhealthy sent ++ fst (monitorLoop host devices script),
     snd (monitorLoop host devices script)).
Proof.
  intros H. cbn [monitorLoop]. rewrite H.
  destruct (monitorLoop host devices script). reflexivity.
Qed.

Lemma checkHealth_disabled (devices : list Device) (script : list Observation) :
  healthChecksDisabled host = true ->
  checkHealth host devices script = ([], Returned).
Proof. intros H. unfold checkHealth. now rewrite H. Qed.

Lemma checkHealth_enabled (devices : list Device) (script : list Observation) :
  healthChecksDisabled host = false ->
  exists acts out, checkHealth host devices script = (OpenEventSet :: acts, out).
Proof.
  intros H. unfold checkHealth. rewrite H.
  destruct (registerDevices host devices) as [registered [|]].
  - destruct (monitorLoop host devices script) as [acts out]. eauto.
  - eauto.
Qed.

Lemma unhealthyOf_map_SendUnhealthy (sent : list Device) :
  unhealthyOf (map SendUnhealthy sent) = sent.
Proof. induction sent as [| d sent IH]; cbn; [reflexivity | now rewrite IH]. Qed.

End Monitor.

(** ** Lists with repeated elements *)

Lemma count_occ_twice (x : string) (l1 l2 l3 : list string) :
  (2 <= count_occ string_dec (l1 ++ x :: l2 ++ x :: l3) x)%nat.
Proof.
  rewrite count_occ_app. cbn [count_occ].
  destruct (string_dec x x) as [_ | Hne]; [| congruence].
  rewrite count_occ_app. cbn [count_occ].
  destruct (string_dec x x) as [_ | Hne]; [lia | congruence].
Qed.

Lemma uintRange_pos (n : Z) :
  0 < n -> exists rest, uintRange n = 0 :: rest.
Proof.
  intros H. unfold uintRange.
  destruct (Z.to_nat n) as [| k] eqn:E; [lia |].
  cbn. eauto.
Qed.

(** * The specification, claim by claim *)

(** C1.  In whole-device mode, a successful enumeration returns, for every
    accelerator that is not skipped, exactly [floor(C/100) * (100 - R)]
    virtual devices, where [C] is the capacity baseline latched when the
    accelerator is reached and [R] in (0, 100] is the reservation: they
    are healthy, carry the accelerator's path, and have the fake
    identifiers [encode(realID, j)] for [j] from 0 up to the count, in
    order.  No product wraps around and nothing panics. *)
Theorem GpuDeviceManager_Devices_floor_formula :
  forall (name : string) (host : Host) (g : GpuDeviceManager)
         (ds : list nvml.Device) (R mem : Z),
    Enumerates host ds ->
    ReservationIs host name R ->
    0 <= mem < uint_modulus ->
    GpuDeviceManager_Devices name host g mem
    = Ok (wholeDeviceSlices host g R mem ds, fold_left latched ds mem)
    /\ forall (k : nat) (d : nvml.Device),
         nth_error ds k = Some d ->
         migEnabledOn host d && skipMigEnabledGPUs g = false ->
         let C := baselineAt mem ds k in
         let usable := (C / 100) * (100 - R) in
         let emitted :=
           map (fun j => {| ID := generateFakeDeviceID (nvml.UUID d) j;
                            Health := Healthy;
                            Topology := None;
                            Path := nvml.Path d |})
               (uintRange usable) in
         List.length emitted = Z.to_nat usable
         /\ (forall j, In j (uintRange usable) <-> 0 <= j < usable)
         /\ wholeDeviceSlices host g R mem ds
            = (wholeDeviceSlices host g R mem (firstn k ds)
               ++ emitted
               ++ wholeDeviceSlices host g R C (skipn (S k) ds))%list.
Proof.
  intros name host g ds R mem Henum HR Hrange. split.
  - now apply GpuDeviceManager_Devices_run.
  - intros k d Hk Hskip C usable emitted. split; [| split].
    + unfold emitted. now rewrite length_map, uintRange_length.
    + intros j. apply uintRange_spec.
    + unfold wholeDeviceSlices.
      rewrite (concatBlocks_nth (wholeDeviceBlock host g R) ds mem k d Hk).
      unfold wholeDeviceBlock at 2. rewrite Hskip. reflexivity.
Qed.

(** C1, at capacity 8000 with reservation 10: 7200 devices named
    [realID-_-0] to [realID-_-7199]. *)
Lemma GpuDeviceManager_Devices_floor_formula_witness :
  Enumerates (wholeHost 8000 "10") [gpuA 8000]
  /\ ReservationIs (wholeHost 8000 "10") reservedVar 10
  /\ GpuDeviceManager_Devices reservedVar (wholeHost 8000 "10")
       (NewGpuDeviceManager false) 0
     = Ok (map (slice "GPU-8dcd427f-483b-b48f-d7e5-75fb19a52b76") (uintRange 7200),
           8000)
  /\ (ID (slice "GPU-8dcd427f-483b-b48f-d7e5-75fb19a52b76" 0)
      = "GPU-8dcd427f-483b-b48f-d7e5-75fb19a52b76-_-0"
      /\ ID (slice "GPU-8dcd427f-483b-b48f-d7e5-75fb19a52b76" 7199)
         = "GPU-8dcd427f-483b-b48f-d7e5-75fb19a52b76-_-7199").
Proof.
  assert (He : Enumerates (wholeHost 8000 "10") [gpuA 8000])
    by apply wholeHost_Enumerates.
  assert (Hr : ReservationIs (wholeHost 8000 "10") reservedVar 10)
    by (split; [reflexivity | lia]).
  assert (Hm : 0 <= 0 < uint_modulus) by (unfold uint_modulus; lia).
  split; [exact He |]. split; [exact Hr |]. split; [| split; reflexivity].
  refine (eq_trans
            (proj1 (GpuDeviceManager_Devices_floor_formula
                      reservedVar (wholeHost 8000 "10") (NewGpuDeviceManager false)
                      [gpuA 8000] 10 0 He Hr Hm)) _).
  unfold wholeDeviceSlices. cbn [concatBlocks]. rewrite app_nil_r. reflexivity.
Defined.

(** Capacity 80 with reservation 25: the quotient [80 / 100] is 0, no
    device is returned. *)
Example whole_device_capacity_80_reservation_25 :
  GpuDeviceManager_Devices reservedVar (wholeHost 80 "25") (NewGpuDeviceManager false) 0
  = Ok ([], 80)
  /\ usableWhole 80 25 = 0.
Proof. split; reflexivity. Qed.

(** C2.  The claim: every matching partition gets
    [capacityBaseline * (1 - reservationPercent/100)] virtual devices, the
    percentage taken as a fraction.  The code divides the percentage by
    100 as an unsigned integer before it subtracts, so a reservation below
    100 withholds nothing: at capacity 8000 with reservation 10 the one
    matching partition gets 8000 devices where the fraction gives 7200. *)
Theorem MigDeviceManager_Devices_ignores_reservation :
  MigDeviceManager_Devices reservedVar (migHost 8000 "10")
    (NewMigDeviceManager bySuffix "/1/0") 0
  = Ok (map (slice "GPU-8dcd427f-483b-b48f-d7e5-75fb19a52b76") (uintRange 8000), 8000)
  /\ List.length (map (slice "GPU-8dcd427f-483b-b48f-d7e5-75fb19a52b76") (uintRange 8000))
     = Z.to_nat 8000
  /\ fractionalShare 8000 10 = 7200
  /\ usableWhole 8000 10 = 7200.
Proof.
  split; [| split; [| split; reflexivity]].
  - rewrite (MigDeviceManager_Devices_run reservedVar (migHost 8000 "10") _
               [gpuA 8000] 10 0).
    + unfold partitionSlices. cbn [concatBlocks]. unfold partitionBlock.
      replace (migEnabledOn (migHost 8000 "10") (gpuA 8000)) with true by reflexivity.
      replace (matchingMigs (migHost 8000 "10") (NewMigDeviceManager bySuffix "/1/0")
                 (gpuA 8000))
        with [migOf "1" "0"] by reflexivity.
      cbn [flat_map]. rewrite !app_nil_r. reflexivity.
    + apply migHost_Enumerates.
    + apply migHost_ListsPartitions.
    + split; [reflexivity | lia].
    + unfold uint_modulus; lia.
  - now rewrite length_map, uintRange_length.
Qed.

(** C3, as stated, fails: a real identifier that ends with the first two
    bytes of the separator does not contain the separator, yet the
    separator written by the encoder completes an earlier occurrence. *)
Lemma extractRealDeviceID_counterexample :
  strings.Contains "GPU-_" separator = false
  /\ generateFakeDeviceID "GPU-_" 0 = "GPU-_-_-0"
  /\ extractRealDeviceID (generateFakeDeviceID "GPU-_" 0) = "GPU"
  /\ extractRealDeviceID (generateFakeDeviceID "GPU-_" 0) <> "GPU-_".
Proof. repeat split; try reflexivity. vm_compute. discriminate. Qed.

(** C3, amended.  Decoding inverts encoding for every index and every real
    identifier that neither contains the separator nor ends with its
    first two bytes ["-_"]; digits and hyphens elsewhere do no harm. *)
Theorem extractRealDeviceID_generateFakeDeviceID :
  forall (realID : string) (index : Z),
    strings.Contains realID separator = false ->
    strings.HasSuffix realID "-_" = false ->
    extractRealDeviceID (generateFakeDeviceID realID index) = realID.
Proof.
  intros realID index Hc Hs. unfold generateFakeDeviceID.
  rewrite (extractRealDeviceID_at_first_separator _ (String.length realID)).
  - apply substring_prefix_app.
  - now apply Index_separator_encoded.
Qed.

(** C3, amended, on a hardware UUID and the index 7199. *)
Lemma extractRealDeviceID_generateFakeDeviceID_witness :
  strings.Contains "GPU-8dcd427f-483b-b48f-d7e5-75fb19a52b76" separator = false
  /\ strings.HasSuffix "GPU-8dcd427f-483b-b48f-d7e5-75fb19a52b76" "-_" = false
  /\ extractRealDeviceID
       (generateFakeDeviceID "GPU-8dcd427f-483b-b48f-d7e5-75fb19a52b76" 7199)
     = "GPU-8dcd427f-483b-b48f-d7e5-75fb19a52b76".
Proof.
  split; [reflexivity |]. split; [reflexivity |].
  apply (extractRealDeviceID_generateFakeDeviceID
           "GPU-8dcd427f-483b-b48f-d7e5-75fb19a52b76" 7199); reflexivity.
Defined.

(** C4.  The claim: an event whose type is not the critical-error class
    produces no notification.  The code tests the type only when the wait
    also failed ([err != nil && e.Etype != nvml.XidCriticalError]); an
    event of another type (here a double-bit ECC error, type 2) returned
    by a successful wait falls through, and having no UUID it marks every
    monitored device unhealthy. *)
Theorem checkHealth_processes_non_critical_event :
  nvml.Etype (xidEvent None None None 2 0) <> nvml.XidCriticalError
  /\ handleEvent (healthHost "") [slice "GPU-1" 0] (xidEvent None None None 2 0) None
     = ([slice "GPU-1" 0], true)
  /\ checkHealth (healthHost "") [slice "GPU-1" 0]
       [Waited (xidEvent None None None 2 0) None; StopFired]
     = ([OpenEventSet; RegisterEvent nvml.XidCriticalError "GPU-1";
         WaitForEvent 5000; SendUnhealthy (slice "GPU-1" 0); CloseEventSet],
        Returned).
Proof. split; [discriminate |]. split; reflexivity. Qed.

Lemma tripleEqb_true (a b : string * Z * Z) : tripleEqb a b = true <-> a = b.
Proof.
  destruct a as [[g1 i1] c1], b as [[g2 i2] c2]. unfold tripleEqb.
  rewrite !andb_true_iff, String.eqb_eq, !Z.eqb_eq. split.
  - intros [[-> ->] ->]. reflexivity.
  - intros H. injection H as -> -> ->. auto.
Qed.

(** C5, as stated, fails: a whole-GPU device sliced from the accelerator
    of the event is not reported when the event carries instance
    identifiers other than [0xFFFFFFFF]. *)
Lemma handleEvent_instance_ids_counterexample :
  extractRealDeviceID (ID (slice "GPU-1" 0)) = "GPU-1"
  /\ snd (nvml.ParseMigDeviceUUID (driver (healthHost "")) "GPU-1") <> None
  /\ nvml.Etype (xidEvent (Some "GPU-1") (Some 0) (Some 0) 8 48) = nvml.XidCriticalError
  /\ handleEvent (healthHost "") [slice "GPU-1" 0]
       (xidEvent (Some "GPU-1") (Some 0) (Some 0) 8 48) None
     = ([], true).
Proof. repeat split; try reflexivity. discriminate. Qed.

(** C5, amended.  For every critical fault event whose code is not 31, 43
    or 45 and that carries a non-empty real identifier X and the instance
    identifiers (gi, ci), the monitor reports, in order, exactly the
    monitored devices whose triple is (X, gi, ci).  A device whose decoded
    identifier is not a partition-scoped UUID has the triple
    (decoded identifier, 0xFFFFFFFF, 0xFFFFFFFF): it is reported exactly
    when its fake identifier decodes to X and both instance identifiers of
    the event are 0xFFFFFFFF.  A device whose decoded identifier is a
    partition-scoped UUID is reported exactly when its parsed triple is
    the event's. *)
Theorem handleEvent_reports_matching_triples :
  forall (host : Host) (devices : list Device) (e : nvml.Event) (err : error)
         (x : string) (gi ci : Z),
    nvml.Etype e = nvml.XidCriticalError ->
    applicationXid (nvml.Edata e) = false ->
    nvml.EventUUID e = Some x ->
    x <> EmptyString ->
    nvml.GpuInstanceId e = Some gi ->
    nvml.ComputeInstanceId e = Some ci ->
    handleEvent host devices e err
    = (filter (fun d => tripleEqb (deviceTriple host d) (x, gi, ci)) devices, true)
    /\ (forall d,
          snd (nvml.ParseMigDeviceUUID (driver host) (extractRealDeviceID (ID d))) <> None ->
          (In d (fst (handleEvent host devices e err))
           <-> In d devices
               /\ extractRealDeviceID (ID d) = x
               /\ gi = 4294967295 /\ ci = 4294967295))
    /\ (forall d gpu dgi dci,
          nvml.ParseMigDeviceUUID (driver host) (extractRealDeviceID (ID d))
          = ((gpu, dgi, dci), None) ->
          (In d (fst (handleEvent host devices e err))
           <-> In d devices /\ gpu = x /\ dgi = gi /\ dci = ci)).
Proof.
  intros host devices e err x gi ci Ht Hd Hx Hne Hgi Hci.
  assert (Hrun : handleEvent host devices e err
                 = (filter (fun d => tripleEqb (deviceTriple host d) (x, gi, ci)) devices,
                    true)).
  { rewrite handleEvent_critical by assumption. rewrite Hx.
    destruct x as [| c x]; [congruence |]. cbn [String.length Nat.eqb].
    now apply matchDevices_filter. }
  split; [exact Hrun |]. rewrite Hrun. cbn [fst]. split.
  - intros d Hparse. rewrite filter_In, tripleEqb_true. unfold deviceTriple.
    destruct (nvml.ParseMigDeviceUUID (driver host) (extractRealDeviceID (ID d)))
      as [t [msg |]]; [| now cbn in Hparse].
    split.
    + intros [Hin Heq]. injection Heq as -> <- <-. auto.
    + intros (Hin & -> & -> & ->). auto.
  - intros d gpu dgi dci Hparse. rewrite filter_In, tripleEqb_true.
    unfold deviceTriple. rewrite Hparse. split.
    + intros [Hin Heq]. injection Heq as -> -> ->. auto.
    + intros (Hin & -> & -> & ->). auto.
Qed.

(** C5, amended, on four monitored devices: the two slices of the GPU of
    the event are reported, the slice of another GPU and the slice named
    after a MIG device of the same GPU are not. *)
Lemma handleEvent_reports_matching_triples_witness :
  handleEvent (healthHost "")
    [slice "GPU-1" 0; slice "GPU-2" 0; slice "GPU-1" 1; slice "MIG-GPU-1/0/0" 0]
    (xidEvent (Some "GPU-1") (Some 4294967295) (Some 4294967295) 8 48) None
  = ([slice "GPU-1" 0; slice "GPU-1" 1], true).
Proof.
  refine (eq_trans
            (proj1 (handleEvent_reports_matching_triples (healthHost "")
                      [slice "GPU-1" 0; slice "GPU-2" 0; slice "GPU-1" 1;
                       slice "MIG-GPU-1/0/0" 0]
                      (xidEvent (Some "GPU-1") (Some 4294967295) (Some 4294967295) 8 48)
                      None "GPU-1" 4294967295 4294967295
                      eq_refl eq_refl eq_refl _ eq_refl eq_refl)) _).
  - discriminate.
  - reflexivity.
Defined.

(** C6, as stated, fails: a critical-error event without a UUID whose
    code is an application error (31) reports nothing. *)
Lemma handleEvent_no_uuid_counterexample :
  nvml.Etype (xidEvent None None None 8 31) = nvml.XidCriticalError
  /\ nvml.EventUUID (xidEvent None None None 8 31) = None
  /\ handleEvent (healthHost "") [slice "GPU-1" 0] (xidEvent None None None 8 31) None
     = ([], true)
  /\ [slice "GPU-1" 0] <> [].
Proof. repeat split; try reflexivity. discriminate. Qed.

(** C6, amended.  For every critical fault event whose code is not 31, 43
    or 45 and that carries no originating identifier (nil or empty), the
    monitor reports every device of the monitored set once, in the order
    of the set, and goes on with the next round of the loop. *)
Theorem handleEvent_no_uuid_reports_all :
  forall (host : Host) (devices : list Device) (e : nvml.Event) (err : error)
         (script : list Observation),
    nvml.Etype e = nvml.XidCriticalError ->
    applicationXid (nvml.Edata e) = false ->
    nvml.EventUUID e = None \/ nvml.EventUUID e = Some EmptyString ->
    handleEvent host devices e err = (devices, true)
    /\ monitorLoop host devices (Waited e err :: script)
       = (WaitForEvent 5000
            :: map SendUnhealthy devices ++ fst (monitorLoop host devices script),
          snd (monitorLoop host devices script))
    /\ unhealthyOf (map SendUnhealthy devices) = devices.
Proof.
  intros host devices e err script Ht Hd Hu.
  assert (Hrun : handleEvent host devices e err = (devices, true)).
  { rewrite handleEvent_critical by assumption.
    destruct Hu as [-> | ->]; reflexivity. }
  split; [exact Hrun |]. split.
  - now apply monitorLoop_step.
  - apply unhealthyOf_map_SendUnhealthy.
Qed.

(** C6, amended, on an event with an empty UUID and code 79. *)
Lemma handleEvent_no_uuid_reports_all_witness :
  monitorLoop (healthHost "") [slice "GPU-1" 0; slice "GPU-2" 0]
    [Waited (xidEvent (Some EmptyString) None None 8 79) None; StopFired]
  = ([WaitForEvent 5000; SendUnhealthy (slice "GPU-1" 0);
      SendUnhealthy (slice "GPU-2" 0)], Returned).
Proof.
  refine (eq_trans
            (proj1 (proj2 (handleEvent_no_uuid_reports_all (healthHost "")
                             [slice "GPU-1" 0; slice "GPU-2" 0]
                             (xidEvent (Some EmptyString) None None 8 79) None
                             [StopFired] eq_refl eq_refl (or_intror eq_refl)))) _).
  reflexivity.
Defined.

(** C7.  An event whose code is 31, 43 or 45 never produces an unhealthy
    notification, whatever its type, its UUID, the error returned with
    it and the monitored set: the round only waits, and the loop goes
    on. *)
Theorem handleEvent_ignores_application_errors :
  forall (host : Host) (devices : list Device) (e : nvml.Event) (err : error)
         (script : list Observation),
    nvml.Edata e = 31 \/ nvml.Edata e = 43 \/ nvml.Edata e = 45 ->
    handleEvent host devices e err = ([], true)
    /\ monitorLoop host devices (Waited e err :: script)
       = (WaitForEvent 5000 :: fst (monitorLoop host devices script),
          snd (monitorLoop host devices script)).
Proof.
  intros host devices e err script Hcode.
  assert (Hrun : handleEvent host devices e err = ([], true)).
  { apply handleEvent_application_error. unfold applicationXid.
    destruct Hcode as [-> | [-> | ->]]; reflexivity. }
  split; [exact Hrun |].
  now rewrite (monitorLoop_step host devices [] e err script Hrun).
Qed.

(** C7 on two events in a row, codes 43 and 31. *)
Lemma handleEvent_ignores_application_errors_witness :
  monitorLoop (healthHost "") [slice "GPU-1" 0; slice "GPU-2" 0]
    [Waited (xidEvent (Some "GPU-1") (Some 4294967295) (Some 4294967295) 8 43) None;
     Waited (xidEvent None None None 8 31) None;
     StopFired]
  = ([WaitForEvent 5000; WaitForEvent 5000], Returned).
Proof.
  refine (eq_trans
            (proj2 (handleEvent_ignores_application_errors (healthHost "")
                      [slice "GPU-1" 0; slice "GPU-2" 0]
                      (xidEvent (Some "GPU-1") (Some 4294967295) (Some 4294967295) 8 43)
                      None
                      [Waited (xidEvent None None None 8 31) None; StopFired]
                      (or_intror (or_introl eq_refl)))) _).
  reflexivity.
Defined.

(** C8.  With the disable directive set to "all" or to "xids",
    [checkHealth] returns at once for every device set and every
    behaviour of the driver: it performs no action at all, so no event set
    is opened, nothing is registered and nothing is written to the
    unhealthy channel. *)
Theorem checkHealth_disabled_by_directive :
  forall (host : Host) (devices : list Device) (script : list Observation),
    Getenv host envDisableHealthChecks = "all"
    \/ Getenv host envDisableHealthChecks = "xids" ->
    checkHealth host devices script = ([], Returned).
Proof.
  intros host devices script H. apply checkHealth_disabled.
  unfold healthChecksDisabled. destruct H as [-> | ->]; reflexivity.
Qed.

(** C8 with the directive "all". *)
Lemma checkHealth_disabled_by_directive_witness :
  Getenv (healthHost "all") envDisableHealthChecks = "all"
  /\ checkHealth (healthHost "all") [slice "GPU-1" 0]
       [Waited (xidEvent None None None 8 79) None; StopFired]
     = ([], Returned).
Proof.
  split; [reflexivity |].
  apply (checkHealth_disabled_by_directive (healthHost "all")).
  left. reflexivity.
Defined.

(** C9.  The directive is matched by substring after lower-casing, not
    by exact value.  For every value of [DP_DISABLE_HEALTHCHECKS] whose
    lower-casing ([strings.ToLower]: byte-wise on ASCII, the library's
    Unicode mapping otherwise) contains "xids", [checkHealth] returns at
    once without any action.  For every value whose lower-casing is not
    "all" and does not contain "xids", the check is not disabled and
    monitoring proceeds in full: the event set is opened, the devices
    are registered, and either the registration panics and the set is
    closed, or the monitor loop runs over the events and the set is
    closed when the function is left. *)
Theorem checkHealth_directive_is_substring_match :
  forall (host : Host) (devices : list Device) (script : list Observation),
    (strings.Contains
       (strings.ToLower (MapToLower host) (Getenv host envDisableHealthChecks))
       "xids" = true ->
     checkHealth host devices script = ([], Returned))
    /\ (strings.ToLower (MapToLower host) (Getenv host envDisableHealthChecks) <> "all" ->
        strings.Contains
          (strings.ToLower (MapToLower host) (Getenv host envDisableHealthChecks))
          "xids" = false ->
        healthChecksDisabled host = false
        /\ checkHealth host devices script
           = if snd (registerDevices host devices)
             then (OpenEventSet
                     :: fst (registerDevices host devices)
                     ++ fst (monitorLoop host devices script)
                     ++ deferred (snd (monitorLoop host devices script)),
                   snd (monitorLoop host devices script))
             else (OpenEventSet :: fst (registerDevices host devices) ++ [CloseEventSet],
                   Panicked)).
Proof.
  intros host devices script. split.
  - intros H. apply checkHealth_disabled. unfold healthChecksDisabled.
    destruct (String.eqb _ "all"); [reflexivity | exact H].
  - intros Hall Hxids.
    assert (Hoff : healthChecksDisabled host = false).
    { unfold healthChecksDisabled. apply String.eqb_neq in Hall.
      now rewrite Hall. }
    split; [exact Hoff |].
    unfold checkHealth. rewrite Hoff.
    destruct (registerDevices host devices) as [registered [|]]; cbn [fst snd].
    + destruct (monitorLoop host devices script) as [acts out]. reflexivity.
    + reflexivity.
Qed.

(** C9 with a directive that only contains "xids", in mixed case; with
    the directive X, U+0130, D, S, which is not ASCII and lower-cases to
    "xids"; and with the directive "xid", under which a device is
    registered and an event without UUID reports it. *)
Lemma checkHealth_directive_is_substring_match_witness :
  strings.ToLower lowerDirectiveRunes "NoXidsPlease" = "noxidsplease"
  /\ checkHealth (healthHost "NoXidsPlease") [slice "GPU-1" 0]
       [Waited (xidEvent None None None 8 79) None; StopFired]
     = ([], Returned)
  /\ checkHealth (healthHost (String "X" (String "196" (String "176" "DS"))))
       [slice "GPU-1" 0]
       [Waited (xidEvent None None None 8 79) None; StopFired]
     = ([], Returned)
  /\ checkHealth (healthHost "xid") [slice "GPU-1" 0]
       [Waited (xidEvent None None None 8 79) None; StopFired]
     = ([OpenEventSet; RegisterEvent nvml.XidCriticalError "GPU-1";
         WaitForEvent 5000; SendUnhealthy (slice "GPU-1" 0); CloseEventSet],
        Returned).
Proof.
  split; [reflexivity |]. split; [| split].
  - apply (proj1 (checkHealth_directive_is_substring_match
                    (healthHost "NoXidsPlease") [slice "GPU-1" 0]
                    [Waited (xidEvent None None None 8 79) None; StopFired])).
    reflexivity.
  - apply (proj1 (checkHealth_directive_is_substring_match
                    (healthHost (String "X" (String "196" (String "176" "DS"))))
                    [slice "GPU-1" 0]
                    [Waited (xidEvent None None None 8 79) None; StopFired])).
    reflexivity.
  - refine (eq_trans
              (proj2 (proj2 (checkHealth_directive_is_substring_match
                               (healthHost "xid") [slice "GPU-1" 0]
                               [Waited (xidEvent None None None 8 79) None; StopFired])
                        _ _)) _).
    + discriminate.
    + reflexivity.
    + reflexivity.
Defined.

(** C10.  In partitioned mode the slice index restarts at 0 for every
    matching partition and the fake identifier is built from the parent's
    UUID: when an enumerated MIG-enabled accelerator has two or more
    matching partitions and a non-zero per-partition count, the
    enumeration succeeds and the identifiers it returns are not distinct
    (the parent's identifier with index 0 occurs at least twice). *)
Theorem MigDeviceManager_Devices_duplicate_ids :
  forall (name : string) (host : Host) (m : MigDeviceManager)
         (ds : list nvml.Device) (R mem : Z) (k : nat) (d : nvml.Device),
    Enumerates host ds ->
    ListsPartitions host ds ->
    ReservationIs host name R ->
    0 <= mem < uint_modulus ->
    nth_error ds k = Some d ->
    migEnabledOn host d = true ->
    (2 <= List.length (matchingMigs host m d))%nat ->
    0 < usablePartition (baselineAt mem ds k) R ->
    exists devs mem',
      MigDeviceManager_Devices name host m mem = Ok (devs, mem')
      /\ (2 <= count_occ string_dec (map ID devs)
                         (generateFakeDeviceID (nvml.UUID d) 0))%nat
      /\ ~ NoDup (map ID devs).
Proof.
  intros name host m ds R mem k d Henum Hlist HR Hrange Hk Hmig Htwo Hpos.
  exists (partitionSlices host m R mem ds), (fold_left latched ds mem).
  split; [now apply MigDeviceManager_Devices_run |].
  assert (Hcount : (2 <= count_occ string_dec
                          (map ID (partitionSlices host m R mem ds))
                          (generateFakeDeviceID (nvml.UUID d) 0))%nat).
  { unfold partitionSlices.
    rewrite (concatBlocks_nth (partitionBlock host m R) ds mem k d Hk).
    unfold partitionBlock at 2. rewrite Hmig.
    destruct (matchingMigs host m d) as [| a [| b rest]]; cbn in Htwo; try lia.
    destruct (uintRange_pos _ Hpos) as [js ->].
    cbn [flat_map map]. rewrite !map_app. cbn [map ID fakeDevice].
    cbn [app]. rewrite <- ?app_assoc. cbn [app].
    apply count_occ_twice. }
  split; [exact Hcount |].
  intros Hnodup.
  pose proof (proj1 (NoDup_count_occ string_dec _) Hnodup
                (generateFakeDeviceID (nvml.UUID d) 0)).
  lia.
Qed.

(** C10 on one MIG-enabled GPU with two matching MIG devices. *)
Lemma MigDeviceManager_Devices_duplicate_ids_witness :
  exists devs mem',
    MigDeviceManager_Devices reservedVar (migHost 300 "50")
      (NewMigDeviceManager anyMig "nvidia.com/gpu") 0 = Ok (devs, mem')
    /\ (2 <= count_occ string_dec (map ID devs)
                       (generateFakeDeviceID (nvml.UUID (gpuA 300)) 0))%nat
    /\ ~ NoDup (map ID devs).
Proof.
  apply (MigDeviceManager_Devices_duplicate_ids reservedVar (migHost 300 "50")
           (NewMigDeviceManager anyMig "nvidia.com/gpu") [gpuA 300] 50 0 0 (gpuA 300)).
  - apply migHost_Enumerates.
  - apply migHost_ListsPartitions.
  - split; [reflexivity | lia].
  - unfold uint_modulus; lia.
  - reflexivity.
  - reflexivity.
  - cbn. lia.
  - reflexivity.
Defined.

(** * Further properties of the code *)

(** ** Decoding and encoding of fake identifiers *)

Lemma HasPrefix_substring (pre s : string) (n : nat) :
  strings.HasPrefix (String.substring 0 n s) pre = true ->
  strings.HasPrefix s pre = true.
Proof.
  revert s n; induction pre as [| a pre IH]; intros s n H; [reflexivity |].
  destruct s as [| b s]; [destruct n; discriminate |].
  destruct n as [| n]; [discriminate |].
  cbn in H |- *. apply andb_true_iff in H as [Hab H].
  apply andb_true_iff. split; [exact Hab | exact (IH s n H)].
Qed.

Lemma Index_substring_None (sub s : string) (m : nat) :
  sub <> EmptyString ->
  strings.Index s sub = Some m ->
  strings.Index (String.substring 0 m s) sub = None.
Proof.
  intros Hsub. revert m; induction s as [| c s IH]; intros m.
  - cbn. rewrite HasPrefix_nil_false by exact Hsub. discriminate.
  - cbn [strings.Index].
    destruct (strings.HasPrefix (String c s) sub) eqn:E.
    + intros [= <-]. cbn. now rewrite HasPrefix_nil_false.
    + destruct (strings.Index s sub) as [m' |] eqn:E'; [| discriminate].
      intros [= <-]. cbn [String.substring strings.Index].
      rewrite (IH m' eq_refl). cbn [option_map].
      destruct (strings.HasPrefix (String c (String.substring 0 m' s)) sub) eqn:E'';
        [| reflexivity].
      apply (HasPrefix_substring sub (String c s) (S m')) in E''. congruence.
Qed.

Lemma substring_dropBytes (s : string) (m : nat) :
  s = String.substring 0 m s ++ strings.dropBytes m s.
Proof.
  revert m; induction s as [| c s IH]; intros [| m]; cbn; try reflexivity.
  now rewrite <- IH.
Qed.

Lemma substring_length_le (s : string) (m : nat) :
  (m <= String.length s)%nat -> String.length (String.substring 0 m s) = m.
Proof.
  revert m; induction s as [| c s IH]; intros [| m] H; cbn in *;
    try reflexivity; try lia.
  rewrite IH; lia.
Qed.

Lemma Contains_false_Index (s sub : string) :
  strings.Contains s sub = false <-> strings.Index s sub = None.
Proof.
  unfold strings.Contains. destruct (strings.Index s sub); split; congruence.
Qed.

Lemma string_app_inv_head (s a b : string) : s ++ a = s ++ b -> a = b.
Proof.
  induction s as [| c s IH]; cbn; intros H; [exact H |].
  injection H as H. now apply IH.
Qed.

Lemma string_app_nil_r (s : string) : s ++ EmptyString = s.
Proof. induction s as [| c s IH]; cbn; [reflexivity | now rewrite IH]. Qed.

(** The decimal form of a [uint] determines it. *)
Lemma verb_d_inj (j1 j2 : Z) :
  0 <= j1 -> 0 <= j2 -> fmt.verb_d j1 = fmt.verb_d j2 -> j1 = j2.
Proof.
  intros H1 H2 H. unfold fmt.verb_d in H.
  assert (Hnil : forall n, N.to_uint n <> Decimal.Nil).
  { intros n. rewrite <- (DecimalN.Unsigned.of_to n) at 1.
    rewrite DecimalN.Unsigned.to_of. unfold Decimal.unorm.
    destruct (Decimal.nzhead (N.to_uint n)); discriminate. }
  assert (Hu : Some (N.to_uint (Z.to_N j1)) = Some (N.to_uint (Z.to_N j2))).
  { rewrite <- (NilZero.usu _ (Hnil (Z.to_N j1))), <- (NilZero.usu _ (Hnil (Z.to_N j2))).
    now rewrite H. }
  injection Hu as Hu. apply DecimalN.Unsigned.to_uint_inj in Hu. lia.
Qed.

Lemma extractRealDeviceID_encoded (realID : string) (j : Z) :
  cleanID realID -> extractRealDeviceID (generateFakeDeviceID realID j) = realID.
Proof.
  intros [Hc Hs]. unfold generateFakeDeviceID.
  rewrite (extractRealDeviceID_at_first_separator _ (String.length realID)).
  - apply substring_prefix_app.
  - now apply Index_separator_encoded.
Qed.

Lemma Index_short (t sub : string) :
  (String.length t < String.length sub)%nat -> strings.Index t sub = None.
Proof.
  intros H. destruct (strings.Index t sub) as [q |] eqn:E; [| reflexivity].
  apply Index_bound in E. lia.
Qed.

Lemma substring_length_bound (s : string) (n : nat) :
  (String.length (String.substring 0 n s) <= n)%nat.
Proof.
  revert n; induction s as [| c s IH]; intros [| n]; cbn; try lia.
  specialize (IH n). lia.
Qed.

(** A string cut before the end of the first occurrence holds none. *)
Lemma Index_truncated_None (sub s : string) :
  sub <> EmptyString ->
  forall (m n : nat),
    strings.Index s sub = Some m ->
    (n < m + String.length sub)%nat ->
    strings.Index (String.substring 0 n s) sub = None.
Proof.
  intros Hsub. induction s as [| c s IH]; intros m n.
  - cbn. rewrite HasPrefix_nil_false by exact Hsub. discriminate.
  - cbn [strings.Index].
    destruct (strings.HasPrefix (String c s) sub) eqn:E.
    + intros [= <-] Hn. apply Index_short.
      pose proof (substring_length_bound (String c s) n). lia.
    + destruct (strings.Index s sub) as [m' |] eqn:E'; [| discriminate].
      intros [= <-] Hn. destruct n as [| n].
      * cbn. now rewrite HasPrefix_nil_false.
      * cbn [String.substring strings.Index].
        rewrite (IH m' n eq_refl) by lia. cbn [option_map].
        destruct (strings.HasPrefix (String c (String.substring 0 n s)) sub) eqn:E'';
          [| reflexivity].
        apply (HasPrefix_substring sub (String c s) (S n)) in E''. congruence.
Qed.

Lemma HasPrefix_app (sub t : string) : strings.HasPrefix (sub ++ t) sub = true.
Proof.
  induction sub as [| a sub IH]; [reflexivity |].
  cbn. now rewrite Ascii.eqb_refl, IH.
Qed.

Lemma HasPrefix_decompose (t sub : string) :
  strings.HasPrefix t sub = true ->
  t = sub ++ strings.dropBytes (String.length sub) t.
Proof.
  revert t; induction sub as [| a sub IH]; intros t H; [reflexivity |].
  destruct t as [| b t]; [discriminate |].
  cbn in H. apply andb_true_iff in H as [Hab H].
  apply Ascii.eqb_eq in Hab. subst b. cbn. now rewrite <- IH.
Qed.

(** An occurrence makes [Index] find one. *)
Lemma Index_app_Some (a sub b : string) :
  strings.Index (a ++ sub ++ b) sub <> None.
Proof.
  induction a as [| c a IH].
  - cbn [String.append].
    destruct (sub ++ b) eqn:E; cbn [strings.Index];
      rewrite <- E, HasPrefix_app; discriminate.
  - change (String c a ++ sub ++ b) with (String c (a ++ sub ++ b)).
    cbn [strings.Index].
    destruct (strings.HasPrefix (String c (a ++ sub ++ b)) sub); [discriminate |].
    destruct (strings.Index (a ++ sub ++ b) sub); [discriminate | congruence].
Qed.

Lemma Index_at_occurrence (s sub : string) (m : nat) :
  strings.Index s sub = Some m ->
  strings.HasPrefix (strings.dropBytes m s) sub = true.
Proof.
  revert m; induction s as [| c s IH]; intros m; cbn [strings.Index].
  - destruct (strings.HasPrefix EmptyString sub) eqn:E; [| discriminate].
    intros [= <-]. exact E.
  - destruct (strings.HasPrefix (String c s) sub) eqn:E.
    + intros [= <-]. exact E.
    + destruct (strings.Index s sub) as [m' |]; [| discriminate].
      intros [= <-]. cbn. now apply IH.
Qed.

Lemma substring_app_more (p t : string) (k : nat) :
  String.substring 0 (String.length p + k) (p ++ t) = p ++ String.substring 0 k t.
Proof. induction p as [| c p IH]; cbn; [reflexivity | now rewrite IH]. Qed.

Lemma string_app_assoc (a b c : string) : (a ++ b) ++ c = a ++ b ++ c.
Proof. induction a as [| x a IH]; cbn; [reflexivity | now rewrite IH]. Qed.

Lemma HasSuffix_decompose (p suffix : string) :
  strings.HasSuffix p suffix = true -> exists p', p = p' ++ suffix.
Proof.
  unfold strings.HasSuffix. intros H. apply andb_true_iff in H as [_ H].
  apply String.eqb_eq in H.
  exists (String.substring 0 (String.length p - String.length suffix) p).
  pose proof (substring_dropBytes p (String.length p - String.length suffix)) as Hd.
  rewrite H in Hd. exact Hd.
Qed.

(** The part before the first separator is a recoverable identifier. *)
Lemma cleanID_before_first_separator (s : string) (m : nat) :
  strings.Index s separator = Some m ->
  s = String.substring 0 m s ++ separator ++ strings.dropBytes (m + 3) s
  /\ cleanID (String.substring 0 m s).
Proof.
  intros E.
  pose proof (Index_bound s separator m E) as Hb. cbn [String.length separator] in Hb.
  assert (Hs : s = String.substring 0 m s ++ separator ++ strings.dropBytes (m + 3) s).
  { rewrite (substring_dropBytes s m) at 1. f_equal.
    rewrite (HasPrefix_decompose _ separator (Index_at_occurrence s separator m E)) at 1.
    f_equal. cbn [String.length separator].
    clear. revert s; induction m as [| m IH]; intros s; [reflexivity |].
    destruct s as [| c s]; [reflexivity | apply IH]. }
  split; [exact Hs |]. split.
  - apply Contains_false_Index, Index_substring_None; [discriminate | exact E].
  - destruct (strings.HasSuffix (String.substring 0 m s) "-_") eqn:Esuf; [| reflexivity].
    exfalso. apply HasSuffix_decompose in Esuf as [p' Hp'].
    assert (Hcut : String.substring 0 (m + 1) s = p' ++ separator ++ EmptyString).
    { rewrite Hs at 1. rewrite <- (substring_length_le s m) at 1 by lia.
      rewrite substring_app_more, Hp'. cbn [separator String.substring String.append].
      rewrite string_app_assoc. reflexivity. }
    apply (Index_app_Some p' separator EmptyString). rewrite <- Hcut.
    apply (Index_truncated_None separator s ltac:(discriminate) m); [exact E |].
    cbn [String.length separator]. lia.
Qed.

(** The decoder cuts at the first separator.  An argument that contains
    a separator is the result, a separator and a rest, where the result
    neither contains a separator nor ends with ["-_"], so that no
    separator begins before the one it is cut at; conversely, whenever
    the argument is such a prefix followed by a separator, that prefix
    is the result, whatever follows.  An argument without a separator
    comes back whole.  The result never contains a separator and decoding
    it again changes nothing. *)
Theorem extractRealDeviceID_cuts_at_first_separator :
  (forall s : string,
      if strings.Contains s separator
      then exists rest,
          s = extractRealDeviceID s ++ separator ++ rest
          /\ cleanID (extractRealDeviceID s)
      else extractRealDeviceID s = s)
  /\ (forall p rest : string,
        cleanID p -> extractRealDeviceID (p ++ separator ++ rest) = p)
  /\ (forall s : string,
        strings.Contains (extractRealDeviceID s) separator = false
        /\ extractRealDeviceID (extractRealDeviceID s) = extractRealDeviceID s).
Proof.
  split; [| split].
  - intros s. unfold strings.Contains.
    destruct (strings.Index s separator) as [m |] eqn:E.
    + rewrite (extractRealDeviceID_at_first_separator s m E).
      exists (strings.dropBytes (m + 3) s).
      now apply cleanID_before_first_separator.
    + now apply extractRealDeviceID_no_separator.
  - intros p rest [Hc Hs].
    rewrite (extractRealDeviceID_at_first_separator _ (String.length p)).
    + apply substring_prefix_app.
    + now apply Index_separator_encoded.
  - intros s.
    assert (Hnone : strings.Index (extractRealDeviceID s) separator = None).
    { destruct (strings.Index s separator) as [m |] eqn:E.
      - rewrite (extractRealDeviceID_at_first_separator s m E).
        apply Index_substring_None; [discriminate | exact E].
      - now rewrite (extractRealDeviceID_no_separator s E). }
    split; [now apply Contains_false_Index | now apply extractRealDeviceID_no_separator].
Qed.

(** An identifier with two separators is cut at the first one. *)
Lemma extractRealDeviceID_cuts_at_first_separator_witness :
  cleanID "GPU-1"
  /\ extractRealDeviceID ("GPU-1" ++ separator ++ "7-_-3") = "GPU-1".
Proof.
  assert (H : cleanID "GPU-1") by (split; reflexivity).
  split; [exact H |].
  exact (proj1 (proj2 extractRealDeviceID_cuts_at_first_separator) "GPU-1" "7-_-3" H).
Defined.

(** Two fake identifiers built from recoverable real identifiers are
    equal only if both the real identifiers and the indices are: distinct
    accelerators, and distinct slices of one accelerator, get distinct
    names. *)
Theorem generateFakeDeviceID_injective :
  forall (r1 r2 : string) (j1 j2 : Z),
    cleanID r1 -> cleanID r2 -> 0 <= j1 -> 0 <= j2 ->
    r1 <> r2 \/ j1 <> j2 ->
    generateFakeDeviceID r1 j1 <> generateFakeDeviceID r2 j2.
Proof.
  intros r1 r2 j1 j2 Hc1 Hc2 H1 H2 Hne Heq.
  assert (Hr : r1 = r2).
  { rewrite <- (extractRealDeviceID_encoded r1 j1 Hc1),
            <- (extractRealDeviceID_encoded r2 j2 Hc2).
    now rewrite Heq. }
  subst r2. unfold generateFakeDeviceID in Heq.
  apply string_app_inv_head, string_app_inv_head in Heq.
  apply verb_d_inj in Heq; try assumption.
  destruct Hne; congruence.
Qed.

(** The real identifiers "GPU-1" and "GPU-11" with the indices 11 and 1. *)
Lemma generateFakeDeviceID_injective_witness :
  generateFakeDeviceID "GPU-1" 11 <> generateFakeDeviceID "GPU-11" 1.
Proof.
  apply (generateFakeDeviceID_injective "GPU-1" "GPU-11" 11 1).
  - split; reflexivity.
  - split; reflexivity.
  - lia.
  - lia.
  - left. discriminate.
Defined.

(** ** Inverting monadic code *)

Lemma bind_inv {A B : Type} (m : M A) (k : A -> M B) (mem : Z) (r : B * Z) :
  bind m k mem = Ok r ->
  exists a mem1, m mem = Ok (a, mem1) /\ k a mem1 = Ok r.
Proof.
  unfold bind. destruct (m mem) as [[a mem1] | msg]; [eauto | discriminate].
Qed.

Lemma check_inv (err : error) (mem : Z) (u : unit) (mem' : Z) :
  check err mem = Ok (u, mem') -> err = None /\ mem' = mem.
Proof. destruct err; cbn; [discriminate | intros [= _ <-]; auto]. Qed.

Lemma deref_inv {A : Type} (p : option A) (mem : Z) (v : A) (mem' : Z) :
  deref p mem = Ok (v, mem') -> p = Some v /\ mem' = mem.
Proof. destruct p; cbn; [intros [= <- <-]; auto | discriminate]. Qed.

Lemma latchGPUMemory_inv (d : nvml.Device) (mem : Z) (u : unit) (mem' : Z) :
  latchGPUMemory d mem = Ok (u, mem') -> mem' = latched mem d.
Proof.
  unfold latchGPUMemory, latched, bind, getGPUMemory.
  destruct (mem =? 0).
  - destruct (nvml.Memory d); cbn; [intros [= _ <-]; reflexivity | discriminate].
  - cbn. intros [= _ <-]. reflexivity.
Qed.

Lemma latched_nonzero (mem : Z) (d : nvml.Device) : mem <> 0 -> latched mem d = mem.
Proof. intros H. unfold latched. apply Z.eqb_neq in H. now rewrite H. Qed.

Lemma fold_latched_nonzero (mem : Z) (ds : list nvml.Device) :
  mem <> 0 -> fold_left latched ds mem = mem.
Proof.
  intros H. induction ds as [| d ds IH]; cbn; [reflexivity |].
  now rewrite latched_nonzero.
Qed.

(** ** The reservation *)

Section Reservation.

Variable name : string.
Variable host : Host.

Lemma getReservedMemPerGPU_inv (mem R mem' : Z) :
  getReservedMemPerGPU name host mem = Ok (R, mem') ->
  ReservationIs host name R /\ mem' = mem.
Proof.
  unfold getReservedMemPerGPU, ReservationIs.
  destruct (strconv.Atoi (Getenv host name)) as [raw |]; [| discriminate].
  destruct (raw >? 100) eqn:E1; [discriminate |].
  destruct (raw <=? 0) eqn:E2; [discriminate |]. cbn.
  rewrite Z.gtb_ltb in E1. apply Z.ltb_ge in E1. apply Z.leb_gt in E2.
  rewrite uint_small by (unfold uint_modulus; lia).
  intros [= <- <-]. repeat split; lia.
Qed.

Lemma getReservedMemPerGPU_panics :
  (forall R, ~ ReservationIs host name R) ->
  exists msg, forall mem, getReservedMemPerGPU name host mem = Panic msg.
Proof.
  intros Hbad. unfold getReservedMemPerGPU.
  destruct (strconv.Atoi (Getenv host name)) as [raw |] eqn:E;
    [| eexists; intros; reflexivity].
  destruct ((raw >? 100) || (raw <=? 0)) eqn:E'; [eexists; intros; reflexivity |].
  exfalso. apply (Hbad raw). split; [exact E |].
  apply orb_false_iff in E' as [E1 E2].
  rewrite Z.gtb_ltb in E1. apply Z.ltb_ge in E1. apply Z.leb_gt in E2. lia.
Qed.

(** The reservation is the decimal integer held by the variable, and it
    is accepted exactly when it lies in 1..100: then it is returned as it
    is and the global [gpuMemory] is not touched; a value that is missing,
    is not an integer, or lies outside that range is a panic. *)
Theorem getReservedMemPerGPU_accepts_1_to_100 :
  forall mem : Z,
    match strconv.Atoi (Getenv host name) with
    | Some R =>
        if (1 <=? R) && (R <=? 100)
        then getReservedMemPerGPU name host mem = Ok (R, mem)
        else exists msg, getReservedMemPerGPU name host mem = Panic msg
    | None => exists msg, getReservedMemPerGPU name host mem = Panic msg
    end.
Proof.
  intros mem.
  destruct (strconv.Atoi (Getenv host name)) as [R |] eqn:E.
  - destruct ((1 <=? R) && (R <=? 100)) eqn:E'.
    + apply andb_true_iff in E' as [E1 E2].
      apply Z.leb_le in E1, E2.
      apply getReservedMemPerGPU_ok. split; [exact E | lia].
    + destruct getReservedMemPerGPU_panics as [msg Hmsg];
        [| exists msg; apply Hmsg].
      intros R' [HR' Hrange]. assert (R' = R) by congruence. subst R'.
      apply andb_false_iff in E' as [E1 | E2];
        [apply Z.leb_gt in E1 | apply Z.leb_gt in E2]; lia.
  - unfold getReservedMemPerGPU. rewrite E. eexists. reflexivity.
Qed.

End Reservation.

(** ** What every enumeration returns, whatever the driver answers *)

Ltac invert_bind H a mem1 H1 :=
  apply bind_inv in H as (a & mem1 & H1 & H).

Section AnyHost.

Variable name : string.
Variable host : Host.

Lemma gpuDevicesBody_inv (g : GpuDeviceManager) (i : Z) (devs devs' : list Device)
  (mem mem' : Z) :
  gpuDevicesBody name host g i devs mem = Ok (devs', mem') ->
  exists d,
    nvml.NewDevice (driver host) i = (d, None)
    /\ mem' = latched mem d
    /\ ((skippedBy host g d = true /\ devs' = devs)
        \/ (skippedBy host g d = false
            /\ exists actual,
                 devs' = (devs ++ map (fakeDevice d) (uintRange actual))%list)).
Proof.
  unfold gpuDevicesBody, skippedBy, migEnabledOn. intros H.
  destruct (nvml.NewDevice (driver host) i) as [d e].
  invert_bind H u1 m1 H1. apply check_inv in H1 as [-> ->].
  exists d. split; [reflexivity |].
  destruct (ScanNodeIndex host (nvml.Path d)) as [id e].
  invert_bind H u2 m2 H2. apply check_inv in H2 as [-> ->].
  invert_bind H u3 m3 H3. apply latchGPUMemory_inv in H3 as ->.
  destruct (nvml.IsMigEnabled (driver host) d) as [mig e].
  invert_bind H u4 m4 H4. apply check_inv in H4 as [-> ->]. cbn [fst] in *.
  destruct (mig && skipMigEnabledGPUs g).
  - injection H as <- <-. auto.
  - invert_bind H R m5 H5. apply getReservedMemPerGPU_inv in H5 as [_ ->].
    invert_bind H c m6 H6. injection H6 as <- <-.
    invert_bind H v m7 H7. apply deref_inv in H7 as [_ ->].
    injection H as <- <-. split; [reflexivity |]. right. split; [reflexivity |].
    eexists. reflexivity.
Qed.

Lemma migDevicesBody_inv (m : MigDeviceManager) (i : Z) (devs devs' : list Device)
  (mem mem' : Z) :
  migDevicesBody name host m i devs mem = Ok (devs', mem') ->
  exists d,
    nvml.NewDevice (driver host) i = (d, None)
    /\ mem' = latched mem d
    /\ ((migEnabledOn host d = false /\ devs' = devs)
        \/ (migEnabledOn host d = true
            /\ exists actual,
                 devs' = (devs ++ flat_map (fun _ => map (fakeDevice d) (uintRange actual))
                                           (matchingMigs host m d))%list)).
Proof.
  unfold migDevicesBody, migEnabledOn, matchingMigs, migsOf. intros H.
  destruct (nvml.NewDevice (driver host) i) as [d e].
  invert_bind H u1 m1 H1. apply check_inv in H1 as [-> ->].
  exists d. split; [reflexivity |].
  destruct (ScanNodeIndex host (nvml.Path d)) as [id e].
  invert_bind H u2 m2 H2. apply check_inv in H2 as [-> ->].
  invert_bind H v m0 H0. apply deref_inv in H0 as [_ ->].
  invert_bind H u3 m3 H3. apply latchGPUMemory_inv in H3 as ->.
  destruct (nvml.IsMigEnabled (driver host) d) as [mig e].
  invert_bind H u4 m4 H4. apply check_inv in H4 as [-> ->]. cbn [fst] in *.
  destruct mig; cbn [negb] in H.
  - destruct (nvml.GetMigDevices (driver host) d) as [migs e].
    invert_bind H u5 m5 H5. apply check_inv in H5 as [-> ->].
    invert_bind H c m6 H6. injection H6 as <- <-.
    invert_bind H R m7 H7. apply getReservedMemPerGPU_inv in H7 as [_ ->].
    injection H as <- <-. split; [reflexivity |]. right. split; [reflexivity |].
    rewrite migRange_spec. eexists. reflexivity.
  - injection H as <- <-. auto.
Qed.

(** A property kept by every round is kept by the loop. *)
Lemma forUint_inv (P : list Device -> Z -> Prop)
  (body : Z -> list Device -> M (list Device)) (rounds : nat) :
  forall (i : Z) (devs : list Device) (mem : Z) (devs' : list Device) (mem' : Z),
    (forall k ds m ds' m',
        i <= k < i + Z.of_nat rounds ->
        P ds m -> body k ds m = Ok (ds', m') -> P ds' m') ->
    P devs mem ->
    forUint rounds i body devs mem = Ok (devs', mem') ->
    P devs' mem'.
Proof.
  induction rounds as [| rounds IH]; intros i devs mem devs' mem' Hbody HP Hrun.
  - injection Hrun as <- <-. exact HP.
  - cbn [forUint] in Hrun. invert_bind Hrun ds1 m1 H1.
    apply (IH (i + 1) ds1 m1 devs' mem'); [| | exact Hrun].
    + intros k ds m ds' m' Hk. apply Hbody. lia.
    + apply (Hbody i devs mem ds1 m1); [lia | exact HP | exact H1].
Qed.

Lemma SlicedFrom_fakeDevice (d : nvml.Device) (actual : Z) :
  Forall (fun x => SlicedFrom x d) (map (fakeDevice d) (uintRange actual)).
Proof.
  apply Forall_forall. intros x Hx. apply in_map_iff in Hx as (j & <- & Hj).
  apply uintRange_spec in Hj. unfold SlicedFrom. cbn.
  repeat split. exists j. split; [lia | reflexivity].
Qed.

End AnyHost.

(** Once the global [gpuMemory] is not zero no enumeration changes it, in
    either mode and whatever the driver answers: the capacity baseline is
    written once. *)
Theorem Devices_keep_latched_gpuMemory :
  forall (name : string) (host : Host) (g : GpuDeviceManager) (m : MigDeviceManager)
         (mem : Z) (devs : list Device) (mem' : Z),
    mem <> 0 ->
    GpuDeviceManager_Devices name host g mem = Ok (devs, mem')
    \/ MigDeviceManager_Devices name host m mem = Ok (devs, mem') ->
    mem' = mem.
Proof.
  intros name host g m mem devs mem' Hmem [H | H].
  - unfold GpuDeviceManager_Devices in H.
    destruct (nvml.GetDeviceCount (driver host)) as [n e].
    invert_bind H u m1 H1. apply check_inv in H1 as [-> ->].
    apply (forUint_inv (fun _ x => x = mem) _ _ _ _ _ _ _) in H; auto.
    intros k ds x ds' x' _ -> Hb.
    apply gpuDevicesBody_inv in Hb as (d & _ & -> & _).
    now apply latched_nonzero.
  - unfold MigDeviceManager_Devices in H.
    destruct (nvml.GetDeviceCount (driver host)) as [n e].
    invert_bind H u m1 H1. apply check_inv in H1 as [-> ->].
    apply (forUint_inv (fun _ x => x = mem) _ _ _ _ _ _ _) in H; auto.
    intros k ds x ds' x' _ -> Hb.
    apply migDevicesBody_inv in Hb as (d & _ & -> & _).
    now apply latched_nonzero.
Qed.

(** A baseline of 500 survives the enumeration of a GPU with 8000 units
    of memory. *)
Lemma Devices_keep_latched_gpuMemory_witness :
  GpuDeviceManager_Devices reservedVar (wholeHost 8000 "10") (NewGpuDeviceManager false) 500
  = Ok (map (slice "GPU-8dcd427f-483b-b48f-d7e5-75fb19a52b76") (uintRange 450), 500)
  /\ 500 = 500.
Proof.
  assert (Hrun : GpuDeviceManager_Devices reservedVar (wholeHost 8000 "10")
                   (NewGpuDeviceManager false) 500
                 = Ok (map (slice "GPU-8dcd427f-483b-b48f-d7e5-75fb19a52b76")
                           (uintRange 450), 500))
    by (vm_compute; reflexivity).
  split; [exact Hrun |].
  apply (Devices_keep_latched_gpuMemory reservedVar (wholeHost 8000 "10")
           (NewGpuDeviceManager false) (NewMigDeviceManager anyMig "x") 500
           (map (slice "GPU-8dcd427f-483b-b48f-d7e5-75fb19a52b76") (uintRange 450)) 500).
  - lia.
  - left. exact Hrun.
Defined.

(** Every device an enumeration returns, in either mode and whatever the
    driver answers, is healthy, has no topology, and is a slice of an
    accelerator the driver returned without error for an index below the
    device count: it carries that accelerator's path and a fake
    identifier built from its UUID.  Whole-device mode never returns a
    slice of an accelerator it skips, partitioned mode only returns slices
    of MIG-enabled accelerators. *)
Theorem Devices_return_slices_of_enumerated_accelerators :
  forall (name : string) (host : Host) (g : GpuDeviceManager) (m : MigDeviceManager)
         (mem : Z) (devs : list Device) (mem' : Z),
    (GpuDeviceManager_Devices name host g mem = Ok (devs, mem') ->
     Forall (fun x => exists d, Enumerated host d /\ SlicedFrom x d
                                /\ skippedBy host g d = false) devs)
    /\ (MigDeviceManager_Devices name host m mem = Ok (devs, mem') ->
        Forall (fun x => exists d, Enumerated host d /\ SlicedFrom x d
                                   /\ migEnabledOn host d = true) devs).
Proof.
  intros name host g m mem devs mem'. split; intros H.
  - unfold GpuDeviceManager_Devices in H.
    destruct (nvml.GetDeviceCount (driver host)) as [n e] eqn:En.
    invert_bind H u m1 H1. apply check_inv in H1 as [-> ->].
    apply (forUint_inv
             (fun ds _ => Forall (fun x => exists d, Enumerated host d /\ SlicedFrom x d
                                                     /\ skippedBy host g d = false) ds)
             _ _ _ _ _ _ _) in H; auto.
    intros k ds x ds' x' Hk HP Hb.
    apply gpuDevicesBody_inv in Hb as (d & Hd & _ & [[_ ->] | [Hs [actual ->]]]);
      [exact HP |].
    apply Forall_app. split; [exact HP |].
    eapply Forall_impl; [| apply SlicedFrom_fakeDevice].
    intros x0 Hx0. exists d. split; [| split; [exact Hx0 | exact Hs]].
    exists k. rewrite En. cbn [fst]. split; [lia | exact Hd].
  - unfold MigDeviceManager_Devices in H.
    destruct (nvml.GetDeviceCount (driver host)) as [n e] eqn:En.
    invert_bind H u m1 H1. apply check_inv in H1 as [-> ->].
    apply (forUint_inv
             (fun ds _ => Forall (fun x => exists d, Enumerated host d /\ SlicedFrom x d
                                                     /\ migEnabledOn host d = true) ds)
             _ _ _ _ _ _ _) in H; auto.
    intros k ds x ds' x' Hk HP Hb.
    apply migDevicesBody_inv in Hb as (d & Hd & _ & [[_ ->] | [Hs [actual ->]]]);
      [exact HP |].
    apply Forall_app. split; [exact HP |].
    apply Forall_flat_map, Forall_forall. intros mig _.
    eapply Forall_impl; [| apply SlicedFrom_fakeDevice].
    intros x0 Hx0. exists d. split; [| split; [exact Hx0 | exact Hs]].
    exists k. rewrite En. cbn [fst]. split; [lia | exact Hd].
Qed.

(** The 450 slices returned on the host above. *)
Lemma Devices_return_slices_of_enumerated_accelerators_witness :
  Forall (fun x => exists d, Enumerated (wholeHost 8000 "10") d /\ SlicedFrom x d
                             /\ skippedBy (wholeHost 8000 "10")
                                  (NewGpuDeviceManager false) d = false)
         (map (slice "GPU-8dcd427f-483b-b48f-d7e5-75fb19a52b76") (uintRange 450)).
Proof.
  apply (proj1 (Devices_return_slices_of_enumerated_accelerators
                  reservedVar (wholeHost 8000 "10") (NewGpuDeviceManager false)
                  (NewMigDeviceManager anyMig "x") 500
                  (map (slice "GPU-8dcd427f-483b-b48f-d7e5-75fb19a52b76") (uintRange 450))
                  500)).
  vm_compute. reflexivity.
Defined.

(** ** Enumerations on a driver that answers *)

Lemma concatBlocks_latched (block : Z -> nvml.Device -> list Device) (mem : Z)
  (ds : list nvml.Device) :
  mem <> 0 -> concatBlocks block mem ds = flat_map (block mem) ds.
Proof.
  intros H. induction ds as [| d ds IH]; cbn; [reflexivity |].
  now rewrite latched_nonzero, IH.
Qed.

Lemma concatBlocks_nil (block : Z -> nvml.Device -> list Device) (mem : Z)
  (ds : list nvml.Device) :
  (forall C d, In d ds -> block C d = []) -> concatBlocks block mem ds = [].
Proof.
  revert mem; induction ds as [| d ds IH]; intros mem H; cbn; [reflexivity |].
  rewrite H by (left; reflexivity). apply IH. intros C d' Hd'. apply H. now right.
Qed.

Lemma length_flat_map_const {A B : Type} (f : A -> list B) (n : nat) (l : list A) :
  (forall a, In a l -> List.length (f a) = n) ->
  List.length (flat_map f l) = (List.length l * n)%nat.
Proof.
  induction l as [| a l IH]; intros H; cbn; [reflexivity |].
  rewrite length_app. rewrite H by (left; reflexivity).
  rewrite IH by (intros; apply H; right; assumption). reflexivity.
Qed.

Lemma Enumerates_AcceleratorsOk (host : Host) (ds : list nvml.Device) :
  Enumerates host ds -> AcceleratorsOk host ds.
Proof. intros [_ H1 H2 H3 H4]. repeat split; assumption. Qed.

(** With the baseline already latched, whole-device mode gives every
    accelerator it does not skip the same number of slices,
    [floor(mem/100) * (100 - R)], whatever memory the accelerator itself
    has, and leaves the baseline as it is; the pool has that number of
    devices for each such accelerator. *)
Theorem GpuDeviceManager_Devices_uniform_once_latched :
  forall (name : string) (host : Host) (g : GpuDeviceManager)
         (ds : list nvml.Device) (R mem : Z),
    Enumerates host ds ->
    ReservationIs host name R ->
    0 < mem < uint_modulus ->
    let kept := filter (fun d => negb (skippedBy host g d)) ds in
    let usable := (mem / 100) * (100 - R) in
    GpuDeviceManager_Devices name host g mem
    = Ok (flat_map (fun d => map (fakeDevice d) (uintRange usable)) kept, mem)
    /\ List.length (flat_map (fun d => map (fakeDevice d) (uintRange usable)) kept)
       = (List.length kept * Z.to_nat usable)%nat.
Proof.
  intros name host g ds R mem Henum HR Hmem kept usable. split.
  - rewrite (GpuDeviceManager_Devices_run name host g ds R mem Henum HR) by lia.
    unfold wholeDeviceSlices.
    rewrite concatBlocks_latched, fold_latched_nonzero by lia.
    f_equal. f_equal. unfold kept. clear.
    induction ds as [| d ds IH]; cbn; [reflexivity |].
    unfold wholeDeviceBlock at 1, skippedBy at 1.
    destruct (migEnabledOn host d && skipMigEnabledGPUs g); cbn; now rewrite IH.
  - apply length_flat_map_const. intros d _.
    now rewrite length_map, uintRange_length.
Qed.

Lemma pairHost_Enumerates (memoryA memoryB : Z) (migB : bool) (reservation : string) :
  Enumerates (pairHost memoryA memoryB migB reservation) [gpuA memoryA; gpuB memoryB].
Proof.
  split.
  - reflexivity.
  - intros [| [| [| k]]] d Hk; try discriminate; injection Hk as <-; reflexivity.
  - intros d [<- | [<- | []]]; reflexivity.
  - intros d [<- | [<- | []]]; discriminate.
  - intros d [<- | [<- | []]]; reflexivity.
Qed.

(** A GPU with 8000 units and one with 16000, baseline latched at 8000,
    reservation 50: 4000 slices each. *)
Lemma GpuDeviceManager_Devices_uniform_once_latched_witness :
  GpuDeviceManager_Devices reservedVar (pairHost 8000 16000 false "50")
    (NewGpuDeviceManager true) 8000
  = Ok (map (fakeDevice (gpuA 8000)) (uintRange 4000)
          ++ map (fakeDevice (gpuB 16000)) (uintRange 4000),
        8000)%list.
Proof.
  refine (eq_trans
            (proj1 (GpuDeviceManager_Devices_uniform_once_latched reservedVar
                      (pairHost 8000 16000 false "50") (NewGpuDeviceManager true)
                      [gpuA 8000; gpuB 16000] 50 8000
                      (pairHost_Enumerates 8000 16000 false "50") _ _)) _).
  - split; [reflexivity | lia].
  - unfold uint_modulus; lia.
  - change (filter (fun d => negb (skippedBy (pairHost 8000 16000 false "50")
                                     (NewGpuDeviceManager true) d))
                   [gpuA 8000; gpuB 16000])
      with [gpuA 8000; gpuB 16000].
    cbn [flat_map]. rewrite app_nil_r. reflexivity.
Defined.

(** A second enumeration returns the devices of the first: when the
    process starts cold and the first accelerator has memory, the first
    pass latches that memory and a pass started from the latched value
    returns the same list and the same value. *)
Theorem GpuDeviceManager_Devices_stable_after_first_pass :
  forall (name : string) (host : Host) (g : GpuDeviceManager)
         (d0 : nvml.Device) (ds : list nvml.Device) (R m0 : Z),
    Enumerates host (d0 :: ds) ->
    ReservationIs host name R ->
    nvml.Memory d0 = Some m0 ->
    0 < m0 < uint_modulus ->
    exists devs,
      GpuDeviceManager_Devices name host g 0 = Ok (devs, m0)
      /\ GpuDeviceManager_Devices name host g m0 = Ok (devs, m0).
Proof.
  intros name host g d0 ds R m0 Henum HR Hm0 Hrange.
  exists (wholeDeviceSlices host g R m0 (d0 :: ds)).
  assert (H0 : latched 0 d0 = m0).
  { unfold latched. cbn. rewrite Hm0. apply uint_small. lia. }
  split.
  - rewrite (GpuDeviceManager_Devices_run name host g (d0 :: ds) R 0 Henum HR)
      by (unfold uint_modulus; lia).
    unfold wholeDeviceSlices. cbn [concatBlocks fold_left].
    rewrite H0, (latched_nonzero m0 d0), fold_latched_nonzero by lia. reflexivity.
  - rewrite (GpuDeviceManager_Devices_run name host g (d0 :: ds) R m0 Henum HR) by lia.
    rewrite fold_latched_nonzero by lia. reflexivity.
Qed.

(** The cold start on the two GPUs above. *)
Lemma GpuDeviceManager_Devices_stable_after_first_pass_witness :
  exists devs,
    GpuDeviceManager_Devices reservedVar (pairHost 8000 16000 false "50")
      (NewGpuDeviceManager false) 0 = Ok (devs, 8000)
    /\ GpuDeviceManager_Devices reservedVar (pairHost 8000 16000 false "50")
         (NewGpuDeviceManager false) 8000 = Ok (devs, 8000).
Proof.
  apply (GpuDeviceManager_Devices_stable_after_first_pass reservedVar
           (pairHost 8000 16000 false "50") (NewGpuDeviceManager false)
           (gpuA 8000) [gpuB 16000] 50 8000).
  - apply pairHost_Enumerates.
  - split; [reflexivity | lia].
  - reflexivity.
  - unfold uint_modulus; lia.
Defined.

(** A reservation of 100 withholds everything: both modes return no
    device at all. *)
Theorem Devices_empty_at_reservation_100 :
  forall (name : string) (host : Host) (g : GpuDeviceManager) (m : MigDeviceManager)
         (ds : list nvml.Device) (mem : Z),
    Enumerates host ds ->
    ReservationIs host name 100 ->
    0 <= mem < uint_modulus ->
    GpuDeviceManager_Devices name host g mem = Ok ([], fold_left latched ds mem)
    /\ (ListsPartitions host ds ->
        MigDeviceManager_Devices name host m mem = Ok ([], fold_left latched ds mem)).
Proof.
  intros name host g m ds mem Henum HR Hrange. split; [| intros Hlist].
  - rewrite (GpuDeviceManager_Devices_run name host g ds 100 mem) by assumption.
    unfold wholeDeviceSlices. rewrite concatBlocks_nil; [reflexivity |].
    intros C d _. unfold wholeDeviceBlock, usableWhole.
    destruct (migEnabledOn host d && skipMigEnabledGPUs g); [reflexivity |].
    change (100 - 100) with 0. now rewrite Z.mul_0_r.
  - rewrite (MigDeviceManager_Devices_run name host m ds 100 mem) by assumption.
    unfold partitionSlices. rewrite concatBlocks_nil; [reflexivity |].
    intros C d _. unfold partitionBlock, usablePartition.
    destruct (migEnabledOn host d); [| reflexivity].
    change (1 - 100 / 100) with 0. rewrite Z.mul_0_r. cbn [uintRange].
    induction (matchingMigs host m d) as [| a l IH]; [reflexivity | exact IH].
Qed.

(** One GPU, reservation 100, in both modes. *)
Lemma Devices_empty_at_reservation_100_witness :
  GpuDeviceManager_Devices reservedVar (migHost 8000 "100") (NewGpuDeviceManager false) 0
  = Ok ([], 8000)
  /\ MigDeviceManager_Devices reservedVar (migHost 8000 "100")
       (NewMigDeviceManager anyMig "x") 0
     = Ok ([], 8000).
Proof.
  pose proof (Devices_empty_at_reservation_100 reservedVar (migHost 8000 "100")
                (NewGpuDeviceManager false) (NewMigDeviceManager anyMig "x")
                [gpuA 8000] 0 (migHost_Enumerates 8000 "100")) as H.
  destruct H as [Hg Hm].
  - split; [reflexivity | lia].
  - unfold uint_modulus; lia.
  - split; [exact Hg |]. apply Hm. apply migHost_ListsPartitions.
Defined.

(** ** Accelerators that are passed over, and fatal errors *)

Section Fatal.

Variable name : string.
Variable host : Host.

Lemma gpuDevicesBody_skipped (g : GpuDeviceManager) (i : Z) (d : nvml.Device)
  (devs : list Device) (mem : Z) :
  nvml.NewDevice (driver host) i = (d, None) ->
  snd (ScanNodeIndex host (nvml.Path d)) = None ->
  nvml.Memory d <> None ->
  snd (nvml.IsMigEnabled (driver host) d) = None ->
  skippedBy host g d = true ->
  gpuDevicesBody name host g i devs mem = Ok (devs, latched mem d).
Proof.
  intros Hnew Hpath Hmem Hmig Hskip.
  unfold gpuDevicesBody, skippedBy, migEnabledOn in *. rewrite Hnew.
  destruct (ScanNodeIndex host (nvml.Path d)) as [id e]; cbn in Hpath; subst e.
  destruct (nvml.IsMigEnabled (driver host) d) as [mig e]; cbn in Hmig; subst e.
  cbn [fst] in *. run. run.
  run_by ltac:(apply latchGPUMemory_ok; exact Hmem). run.
  rewrite Hskip. reflexivity.
Qed.

Lemma gpuDevicesBody_bad_reservation (g : GpuDeviceManager) (i : Z) (d : nvml.Device)
  (devs : list Device) (mem : Z) (msg : string) :
  nvml.NewDevice (driver host) i = (d, None) ->
  snd (ScanNodeIndex host (nvml.Path d)) = None ->
  nvml.Memory d <> None ->
  snd (nvml.IsMigEnabled (driver host) d) = None ->
  skippedBy host g d = false ->
  (forall mem', getReservedMemPerGPU name host mem' = Panic msg) ->
  gpuDevicesBody name host g i devs mem = Panic msg.
Proof.
  intros Hnew Hpath Hmem Hmig Hskip Hbad.
  unfold gpuDevicesBody, skippedBy, migEnabledOn in *. rewrite Hnew.
  destruct (ScanNodeIndex host (nvml.Path d)) as [id e]; cbn in Hpath; subst e.
  destruct (nvml.IsMigEnabled (driver host) d) as [mig e]; cbn in Hmig; subst e.
  cbn [fst] in *. run. run.
  run_by ltac:(apply latchGPUMemory_ok; exact Hmem). run.
  rewrite Hskip. apply run_bind_panic, Hbad.
Qed.

Lemma migDevicesBody_not_mig (m : MigDeviceManager) (i : Z) (d : nvml.Device)
  (devs : list Device) (mem : Z) :
  nvml.NewDevice (driver host) i = (d, None) ->
  snd (ScanNodeIndex host (nvml.Path d)) = None ->
  nvml.Memory d <> None ->
  snd (nvml.IsMigEnabled (driver host) d) = None ->
  migEnabledOn host d = false ->
  migDevicesBody name host m i devs mem = Ok (devs, latched mem d).
Proof.
  intros Hnew Hpath Hmem Hmig Hoff.
  unfold migDevicesBody, migEnabledOn in *. rewrite Hnew.
  destruct (ScanNodeIndex host (nvml.Path d)) as [id e]; cbn in Hpath; subst e.
  destruct (nvml.IsMigEnabled (driver host) d) as [mig e]; cbn in Hmig; subst e.
  cbn [fst] in *. subst mig. run. run.
  destruct (deref_ok (nvml.Memory d) mem Hmem) as (v & _ & Hv).
  run_by ltac:(exact Hv).
  run_by ltac:(apply latchGPUMemory_ok; exact Hmem). run.
  reflexivity.
Qed.

Lemma migDevicesBody_bad_reservation (m : MigDeviceManager) (i : Z) (d : nvml.Device)
  (devs : list Device) (mem : Z) (msg : string) :
  nvml.NewDevice (driver host) i = (d, None) ->
  snd (ScanNodeIndex host (nvml.Path d)) = None ->
  nvml.Memory d <> None ->
  snd (nvml.IsMigEnabled (driver host) d) = None ->
  migEnabledOn host d = true ->
  (forall mem', getReservedMemPerGPU name host mem' = Panic msg) ->
  exists msg', migDevicesBody name host m i devs mem = Panic msg'.
Proof.
  intros Hnew Hpath Hmem Hmig Hon Hbad.
  unfold migDevicesBody, migEnabledOn in *. rewrite Hnew.
  destruct (ScanNodeIndex host (nvml.Path d)) as [id e]; cbn in Hpath; subst e.
  destruct (nvml.IsMigEnabled (driver host) d) as [mig e]; cbn in Hmig; subst e.
  cbn [fst] in *. subst mig. run. run.
  destruct (deref_ok (nvml.Memory d) mem Hmem) as (v & _ & Hv).
  run_by ltac:(exact Hv).
  run_by ltac:(apply latchGPUMemory_ok; exact Hmem). run.
  cbn [negb].
  destruct (nvml.GetMigDevices (driver host) d) as [migs [err |]].
  - eexists. reflexivity.
  - run. run. exists msg. apply run_bind_panic, Hbad.
Qed.

(** A failure to open the accelerator, or to read the index out of its
    path, is the panic of [check], in both loops. *)
Lemma devicesBody_driver_failure (g : GpuDeviceManager) (m : MigDeviceManager)
  (i : Z) (d : nvml.Device) (devs : list Device) (mem : Z) (msg : string) :
  nvml.NewDevice (driver host) i = (d, Some msg)
  \/ (nvml.NewDevice (driver host) i = (d, None)
      /\ snd (ScanNodeIndex host (nvml.Path d)) = Some msg) ->
  gpuDevicesBody name host g i devs mem = Panic ("Fatal: " ++ msg ++ fmt.newline)
  /\ migDevicesBody name host m i devs mem = Panic ("Fatal: " ++ msg ++ fmt.newline).
Proof.
  unfold gpuDevicesBody, migDevicesBody. intros [Hnew | [Hnew Hpath]]; rewrite Hnew.
  - split; reflexivity.
  - destruct (ScanNodeIndex host (nvml.Path d)) as [id e]; cbn in Hpath; subst e.
    split; reflexivity.
Qed.

(** A loop whose rounds either pass over their accelerator or panic. *)
Lemma forUint_panics (body : Z -> list Device -> M (list Device))
  (quiet : nvml.Device -> bool) (ds : list nvml.Device) :
  forall (i : Z) (devs : list Device) (mem : Z),
    (forall k d devs' mem', nth_error ds k = Some d -> quiet d = true ->
        body (i + Z.of_nat k) devs' mem' = Ok (devs', latched mem' d)) ->
    (forall k d devs' mem', nth_error ds k = Some d -> quiet d = false ->
        exists msg, body (i + Z.of_nat k) devs' mem' = Panic msg) ->
    (exists d, In d ds /\ quiet d = false) ->
    exists msg, forUint (List.length ds) i body devs mem = Panic msg.
Proof.
  induction ds as [| d ds IH]; intros i devs mem Hquiet Hloud (d' & Hin & Hd').
  - destruct Hin.
  - cbn [List.length forUint].
    destruct (quiet d) eqn:Eq.
    + run_by ltac:(replace i with (i + Z.of_nat 0) by lia;
                   apply Hquiet; [reflexivity | exact Eq]).
      apply IH.
      * intros k x devs' mem' Hk. replace (i + 1 + Z.of_nat k) with (i + Z.of_nat (S k)) by lia.
        now apply Hquiet.
      * intros k x devs' mem' Hk. replace (i + 1 + Z.of_nat k) with (i + Z.of_nat (S k)) by lia.
        now apply Hloud.
      * destruct Hin as [-> | Hin]; [congruence | eauto].
    + destruct (Hloud 0%nat d devs mem eq_refl Eq) as [msg Hmsg].
      exists msg. apply run_bind_panic.
      now replace i with (i + Z.of_nat 0) by lia.
Qed.

Lemma forUint_app (body : Z -> list Device -> M (list Device)) (a b : nat) :
  forall (i : Z) (devs : list Device) (mem : Z),
    forUint (a + b) i body devs mem
    = match forUint a i body devs mem with
      | Ok (devs', mem') => forUint b (i + Z.of_nat a) body devs' mem'
      | Panic msg => Panic msg
      end.
Proof.
  induction a as [| a IH]; intros i devs mem.
  - cbn. now rewrite Z.add_0_r.
  - cbn [Nat.add forUint]. unfold bind at 1 2.
    destruct (body i devs mem) as [[devs1 mem1] | msg]; [| reflexivity].
    rewrite IH. replace (i + 1 + Z.of_nat a) with (i + Z.of_nat (S a)) by lia.
    reflexivity.
Qed.

End Fatal.

(** Accelerators that are passed over cost nothing and need nothing:
    when whole-device mode skips every accelerator, or partitioned mode
    finds none that is MIG-enabled, the enumeration returns no device and
    does not read the reservation variable, so it succeeds even where
    that variable is missing or invalid. *)
Theorem Devices_empty_without_reading_reservation :
  forall (name : string) (host : Host) (g : GpuDeviceManager) (m : MigDeviceManager)
         (ds : list nvml.Device) (mem : Z),
    Enumerates host ds ->
    0 <= mem < uint_modulus ->
    ((forall d, In d ds -> skippedBy host g d = true) ->
     GpuDeviceManager_Devices name host g mem = Ok ([], fold_left latched ds mem))
    /\ ((forall d, In d ds -> migEnabledOn host d = false) ->
        MigDeviceManager_Devices name host m mem = Ok ([], fold_left latched ds mem)).
Proof.
  intros name host g m ds mem [Hcount Hdev Hpath Hmem Hmig] Hrange.
  split; intros Hall.
  - unfold GpuDeviceManager_Devices. rewrite Hcount. run. rewrite Nat2Z.id.
    rewrite (forUint_blocks _ (fun _ _ => []) ds); [| | exact Hrange].
    + now rewrite concatBlocks_nil.
    + intros k d devs' mem' Hk _. pose proof (nth_error_In _ _ Hk) as Hin.
      rewrite Z.add_0_l, app_nil_r. apply gpuDevicesBody_skipped; auto.
  - unfold MigDeviceManager_Devices. rewrite Hcount. run. rewrite Nat2Z.id.
    rewrite (forUint_blocks _ (fun _ _ => []) ds); [| | exact Hrange].
    + now rewrite concatBlocks_nil.
    + intros k d devs' mem' Hk _. pose proof (nth_error_In _ _ Hk) as Hin.
      rewrite Z.add_0_l, app_nil_r. apply migDevicesBody_not_mig; auto.
Qed.

(** A MIG-enabled GPU skipped by whole-device mode and a plain GPU in
    partitioned mode, both with a reservation that is not a number. *)
Lemma Devices_empty_without_reading_reservation_witness :
  strconv.Atoi (Getenv (migHost 8000 "a lot") reservedVar) = None
  /\ GpuDeviceManager_Devices reservedVar (migHost 8000 "a lot")
       (NewGpuDeviceManager true) 0 = Ok ([], 8000)
  /\ MigDeviceManager_Devices reservedVar (wholeHost 8000 "a lot")
       (NewMigDeviceManager anyMig "x") 0 = Ok ([], 8000).
Proof.
  split; [reflexivity |]. split.
  - apply (proj1 (Devices_empty_without_reading_reservation reservedVar
                    (migHost 8000 "a lot") (NewGpuDeviceManager true)
                    (NewMigDeviceManager anyMig "x") [gpuA 8000] 0
                    (migHost_Enumerates 8000 "a lot")
                    ltac:(unfold uint_modulus; lia))).
    intros d [<- | []]. reflexivity.
  - apply (proj2 (Devices_empty_without_reading_reservation reservedVar
                    (wholeHost 8000 "a lot") (NewGpuDeviceManager true)
                    (NewMigDeviceManager anyMig "x") [gpuA 8000] 0
                    (wholeHost_Enumerates 8000 "a lot")
                    ltac:(unfold uint_modulus; lia))).
    intros d [<- | []]. reflexivity.
Defined.

(** A reservation that is missing, not a number or outside 1..100 is
    fatal as soon as an accelerator has to be sliced: whole-device mode
    panics if it does not skip every accelerator, partitioned mode panics
    if some accelerator is MIG-enabled.  No partial list is returned. *)
Theorem Devices_panic_on_invalid_reservation :
  forall (name : string) (host : Host) (g : GpuDeviceManager) (m : MigDeviceManager)
         (ds : list nvml.Device) (mem : Z),
    Enumerates host ds ->
    (forall R, ~ ReservationIs host name R) ->
    ((exists d, In d ds /\ skippedBy host g d = false) ->
     exists msg, GpuDeviceManager_Devices name host g mem = Panic msg)
    /\ ((exists d, In d ds /\ migEnabledOn host d = true) ->
        exists msg, MigDeviceManager_Devices name host m mem = Panic msg).
Proof.
  intros name host g m ds mem [Hcount Hdev Hpath Hmem Hmig] Hbad.
  destruct (getReservedMemPerGPU_panics name host Hbad) as [msg Hmsg].
  split; intros Hex.
  - unfold GpuDeviceManager_Devices. rewrite Hcount. run. rewrite Nat2Z.id.
    apply (forUint_panics _ (skippedBy host g)); [| | exact Hex].
    + intros k d devs' mem' Hk Hq. pose proof (nth_error_In _ _ Hk) as Hin.
      rewrite Z.add_0_l. apply gpuDevicesBody_skipped; auto.
    + intros k d devs' mem' Hk Hq. pose proof (nth_error_In _ _ Hk) as Hin.
      rewrite Z.add_0_l. exists msg.
      apply (gpuDevicesBody_bad_reservation name host g _ d); auto.
  - unfold MigDeviceManager_Devices. rewrite Hcount. run. rewrite Nat2Z.id.
    apply (forUint_panics _ (fun d => negb (migEnabledOn host d))).
    + intros k d devs' mem' Hk Hq. pose proof (nth_error_In _ _ Hk) as Hin.
      rewrite Z.add_0_l. apply negb_true_iff in Hq.
      apply migDevicesBody_not_mig; auto.
    + intros k d devs' mem' Hk Hq. pose proof (nth_error_In _ _ Hk) as Hin.
      rewrite Z.add_0_l. apply negb_false_iff in Hq.
      apply (migDevicesBody_bad_reservation name host m _ d devs' mem' msg); auto.
    + destruct Hex as (d & Hin & Hon). exists d. now rewrite Hon.
Qed.

(** A reservation of 0 on a host with one plain GPU. *)
Lemma Devices_panic_on_invalid_reservation_witness :
  exists msg,
    GpuDeviceManager_Devices reservedVar (wholeHost 8000 "0") (NewGpuDeviceManager true) 0
    = Panic msg.
Proof.
  apply (proj1 (Devices_panic_on_invalid_reservation reservedVar (wholeHost 8000 "0")
                  (NewGpuDeviceManager true) (NewMigDeviceManager anyMig "x")
                  [gpuA 8000] 0 (wholeHost_Enumerates 8000 "0")
                  ltac:(intros R [HR Hrange]; vm_compute in HR;
                        injection HR as <-; lia))).
  exists (gpuA 8000). split; [left; reflexivity | reflexivity].
Defined.

(** An accelerator that cannot be opened, or whose node path does not
    scan, is fatal in both modes even after others have been enumerated:
    the result is the panic of [check], whose text is "Fatal: ", the
    message of the error and a line feed (the text [log.Panicln] builds
    with [fmt.Sprintln]), and the devices sliced so far are lost. *)
Theorem Devices_panic_when_accelerator_fails :
  forall (name : string) (host : Host) (g : GpuDeviceManager) (m : MigDeviceManager)
         (ds : list nvml.Device) (R mem n : Z) (d : nvml.Device) (msg : string),
    nvml.GetDeviceCount (driver host) = (n, None) ->
    Z.of_nat (List.length ds) < n ->
    AcceleratorsOk host ds ->
    ReservationIs host name R ->
    0 <= mem < uint_modulus ->
    nvml.NewDevice (driver host) (Z.of_nat (List.length ds)) = (d, Some msg)
    \/ (nvml.NewDevice (driver host) (Z.of_nat (List.length ds)) = (d, None)
        /\ snd (ScanNodeIndex host (nvml.Path d)) = Some msg) ->
    GpuDeviceManager_Devices name host g mem = Panic ("Fatal: " ++ msg ++ fmt.newline)
    /\ (ListsPartitions host ds ->
        MigDeviceManager_Devices name host m mem = Panic ("Fatal: " ++ msg ++ fmt.newline)).
Proof.
  intros name host g m ds R mem n d msg Hcount Hlt (Hdev & Hpath & Hmem & Hmig)
         HR Hrange Hfail.
  assert (Hn : Z.to_nat n = (List.length ds + S (Z.to_nat n - List.length ds - 1))%nat)
    by lia.
  split; [| intros Hlist].
  - unfold GpuDeviceManager_Devices. rewrite Hcount. run. rewrite Hn, forUint_app.
    rewrite (forUint_blocks _ (wholeDeviceBlock host g R) ds); [| | exact Hrange].
    + cbn [forUint]. apply run_bind_panic.
      apply (devicesBody_driver_failure name host g m _ d). now rewrite Z.add_0_l.
    + intros k x devs' mem' Hk Hmem'. pose proof (nth_error_In _ _ Hk) as Hin.
      rewrite Z.add_0_l. apply gpuDevicesBody_ok; auto.
  - unfold MigDeviceManager_Devices. rewrite Hcount. run. rewrite Hn, forUint_app.
    rewrite (forUint_blocks _ (partitionBlock host m R) ds); [| | exact Hrange].
    + cbn [forUint]. apply run_bind_panic.
      apply (devicesBody_driver_failure name host g m _ d). now rewrite Z.add_0_l.
    + intros k x devs' mem' Hk Hmem'. pose proof (nth_error_In _ _ Hk) as Hin.
      rewrite Z.add_0_l. apply migDevicesBody_ok; auto.
Qed.

(** The driver announces two accelerators and opens only the first. *)
Lemma Devices_panic_when_accelerator_fails_witness :
  GpuDeviceManager_Devices reservedVar (overcountHost 8000 "10")
    (NewGpuDeviceManager false) 0
  = Panic ("Fatal: Invalid Argument" ++ fmt.newline).
Proof.
  apply (proj1 (Devices_panic_when_accelerator_fails reservedVar
                  (overcountHost 8000 "10") (NewGpuDeviceManager false)
                  (NewMigDeviceManager anyMig "x") [gpuA 8000] 10 0 2 noDevice
                  "Invalid Argument" eq_refl ltac:(cbn; lia)
                  (Enumerates_AcceleratorsOk _ _ (wholeHost_Enumerates 8000 "10"))
                  ltac:(split; [reflexivity | lia])
                  ltac:(unfold uint_modulus; lia)
                  (or_introl eq_refl))).
Defined.

(** ** Distinct names in whole-device mode *)

Lemma uintRange_NoDup (n : Z) : NoDup (uintRange n).
Proof.
  unfold uintRange. apply NoDup_map_NoDup_ForallPairs; [| apply seq_NoDup].
  intros a b _ _ H. lia.
Qed.

Lemma fakeDevice_ids_NoDup (d : nvml.Device) (n : Z) :
  NoDup (map ID (map (fakeDevice d) (uintRange n))).
Proof.
  rewrite map_map. apply NoDup_map_NoDup_ForallPairs; [| apply uintRange_NoDup].
  intros a b Ha Hb H. apply uintRange_spec in Ha, Hb. cbn in H.
  unfold generateFakeDeviceID in H.
  apply string_app_inv_head, string_app_inv_head in H.
  apply verb_d_inj in H; lia.
Qed.

Section WholeDeviceNames.

Variable host : Host.
Variable g : GpuDeviceManager.
Variable R : Z.

Lemma wholeDeviceBlock_ids (C : Z) (d : nvml.Device) (x : string) :
  In x (map ID (wholeDeviceBlock host g R C d)) ->
  exists j, x = generateFakeDeviceID (nvml.UUID d) j.
Proof.
  unfold wholeDeviceBlock.
  destruct (migEnabledOn host d && skipMigEnabledGPUs g); [intros [] |].
  rewrite map_map. intros H. apply in_map_iff in H as (j & <- & _).
  exists j. reflexivity.
Qed.

Lemma wholeDeviceSlices_ids (ds : list nvml.Device) :
  forall (mem : Z) (x : string),
    In x (map ID (concatBlocks (wholeDeviceBlock host g R) mem ds)) ->
    exists d j, In d ds /\ x = generateFakeDeviceID (nvml.UUID d) j.
Proof.
  induction ds as [| d ds IH]; intros mem x H; [destruct H |].
  cbn [concatBlocks] in H. rewrite map_app in H. apply in_app_or in H as [H | H].
  - apply wholeDeviceBlock_ids in H as [j ->]. exists d, j. split; [now left | reflexivity].
  - apply IH in H as (d' & j & Hin & ->). exists d', j. split; [now right | reflexivity].
Qed.

Lemma wholeDeviceSlices_NoDup (ds : list nvml.Device) :
  forall mem : Z,
    NoDup (map nvml.UUID ds) ->
    (forall d, In d ds -> cleanID (nvml.UUID d)) ->
    NoDup (map ID (concatBlocks (wholeDeviceBlock host g R) mem ds)).
Proof.
  induction ds as [| d ds IH]; intros mem Hnd Hclean; [constructor |].
  cbn [concatBlocks map] in *. rewrite map_app. inversion Hnd as [| u us Hnotin Hnd']; subst.
  apply NoDup_app.
  - unfold wholeDeviceBlock.
    destruct (migEnabledOn host d && skipMigEnabledGPUs g); [constructor |].
    apply fakeDevice_ids_NoDup.
  - apply IH; [exact Hnd' | intros d' Hd'; apply Hclean; now right].
  - intros x Hx Hx'.
    apply wholeDeviceBlock_ids in Hx as [j Hj].
    apply wholeDeviceSlices_ids in Hx' as (d' & j' & Hin & Hj').
    apply Hnotin. apply in_map_iff. exists d'. split; [| exact Hin].
    rewrite <- (extractRealDeviceID_encoded (nvml.UUID d') j')
      by (apply Hclean; now right).
    rewrite <- (extractRealDeviceID_encoded (nvml.UUID d) j)
      by (apply Hclean; now left).
    congruence.
Qed.

End WholeDeviceNames.

(** In whole-device mode the fake identifiers of one enumeration are
    pairwise distinct, provided the accelerators have distinct UUIDs that
    the decoder recovers (no separator inside, no ["-_"] at the end). *)
Theorem GpuDeviceManager_Devices_distinct_ids :
  forall (name : string) (host : Host) (g : GpuDeviceManager)
         (ds : list nvml.Device) (R mem : Z),
    Enumerates host ds ->
    ReservationIs host name R ->
    0 <= mem < uint_modulus ->
    NoDup (map nvml.UUID ds) ->
    (forall d, In d ds -> cleanID (nvml.UUID d)) ->
    exists devs mem',
      GpuDeviceManager_Devices name host g mem = Ok (devs, mem')
      /\ NoDup (map ID devs).
Proof.
  intros name host g ds R mem Henum HR Hrange Hnd Hclean.
  exists (wholeDeviceSlices host g R mem ds), (fold_left latched ds mem).
  split; [now apply GpuDeviceManager_Devices_run |].
  now apply wholeDeviceSlices_NoDup.
Qed.

(** Two GPUs with 300 units each and a reservation of 50. *)
Lemma GpuDeviceManager_Devices_distinct_ids_witness :
  exists devs mem',
    GpuDeviceManager_Devices reservedVar (pairHost 300 300 false "50")
      (NewGpuDeviceManager false) 0 = Ok (devs, mem')
    /\ NoDup (map ID devs).
Proof.
  apply (GpuDeviceManager_Devices_distinct_ids reservedVar
           (pairHost 300 300 false "50") (NewGpuDeviceManager false)
           [gpuA 300; gpuB 300] 50 0).
  - apply pairHost_Enumerates.
  - split; [reflexivity | lia].
  - unfold uint_modulus; lia.
  - repeat constructor; cbn; intuition discriminate.
  - intros d [<- | [<- | []]]; split; reflexivity.
Defined.

(** ** The run of [checkHealth] *)

Lemma unhealthyOf_app (a b : list Action) :
  unhealthyOf (a ++ b) = (unhealthyOf a ++ unhealthyOf b)%list.
Proof.
  induction a as [| x a IH]; cbn; [reflexivity |].
  destruct x; cbn; now rewrite IH.
Qed.

Lemma filter_all {A : Type} (p : A -> bool) (l : list A) :
  (forall x, In x l -> p x = true) -> filter p l = l.
Proof.
  induction l as [| a l IH]; intros H; cbn; [reflexivity |].
  rewrite H by (now left). rewrite IH; [reflexivity |]. intros x Hx. apply H. now right.
Qed.

Lemma filter_none {A : Type} (p : A -> bool) (l : list A) :
  (forall x, In x l -> p x = false) -> filter p l = [].
Proof.
  induction l as [| a l IH]; intros H; cbn; [reflexivity |].
  rewrite H by (now left). apply IH. intros x Hx. apply H. now right.
Qed.

Section Run.

Variable host : Host.

Lemma registerDevices_sends_monitored (devices : list Device) :
  forall d, In d (unhealthyOf (fst (registerDevices host devices))) -> In d devices.
Proof.
  induction devices as [| x devices IH]; intros d; cbn [registerDevices].
  - intros [].
  - destruct (nvml.RegisterEventForDevice _ _ _) as [msg |].
    + destruct (strings.HasSuffix msg "Not Supported").
      * destruct (registerDevices host devices) as [acts ok]. cbn in *.
        intros [<- | H]; [now left | right; now apply IH].
      * cbn. intros [].
    + destruct (registerDevices host devices) as [acts ok]. cbn in *.
      intros H. right. now apply IH.
Qed.

Lemma matchDevices_sends_monitored (x : string) (e : nvml.Event) (devices : list Device) :
  forall d, In d (fst (matchDevices host x e devices)) -> In d devices.
Proof.
  induction devices as [| a devices IH]; intros d; cbn [matchDevices].
  - intros [].
  - destruct (eventMatches x e (deviceTriple host a)) as [hit |]; [| intros []].
    destruct (matchDevices host x e devices) as [sent ok]. cbn in *.
    destruct hit; cbn; intros H.
    + destruct H as [<- | H]; [now left | right; now apply IH].
    + right. now apply IH.
Qed.

Lemma handleEvent_sends_monitored (devices : list Device) (e : nvml.Event) (err : error) :
  forall d, In d (fst (handleEvent host devices e err)) -> In d devices.
Proof.
  intros d. unfold handleEvent.
  destruct (negb (isNil err) && negb (nvml.Etype e =? nvml.XidCriticalError));
    [intros [] |].
  destruct ((nvml.Edata e =? 31) || (nvml.Edata e =? 43) || (nvml.Edata e =? 45));
    [intros [] |].
  destruct (nvml.EventUUID e) as [x |]; [| auto].
  destruct (String.length x =? 0)%nat; [auto |].
  apply matchDevices_sends_monitored.
Qed.

Lemma monitorLoop_sends_monitored (devices : list Device) (script : list Observation) :
  forall d, In d (unhealthyOf (fst (monitorLoop host devices script))) -> In d devices.
Proof.
  induction script as [| o script IH]; intros d; cbn [monitorLoop].
  - intros [].
  - destruct o as [| e err]; [intros [] |].
    destruct (handleEvent host devices e err) as [sent ok] eqn:E.
    assert (Hsent : forall x, In x sent -> In x devices).
    { intros x Hx. apply (handleEvent_sends_monitored devices e err). now rewrite E. }
    destruct ok.
    + destruct (monitorLoop host devices script) as [acts out]. cbn in *.
      rewrite unhealthyOf_app, unhealthyOf_map_SendUnhealthy.
      intros H. apply in_app_or in H as [H | H]; [now apply Hsent | now apply IH].
    + cbn. rewrite unhealthyOf_map_SendUnhealthy. apply Hsent.
Qed.

Lemma unhealthyOf_deferred (out : Outcome) : unhealthyOf (deferred out) = [].
Proof. destruct out; reflexivity. Qed.

(** The shape of a run that is not disabled. *)
Lemma checkHealth_enabled_run (devices : list Device) (script : list Observation) :
  healthChecksDisabled host = false ->
  checkHealth host devices script
  = if snd (registerDevices host devices)
    then (OpenEventSet :: fst (registerDevices host devices)
            ++ fst (monitorLoop host devices script)
            ++ deferred (snd (monitorLoop host devices script)),
          snd (monitorLoop host devices script))
    else (OpenEventSet :: fst (registerDevices host devices) ++ [CloseEventSet],
          Panicked).
Proof.
  intros H. unfold checkHealth. rewrite H.
  destruct (registerDevices host devices) as [registered [|]]; cbn [fst snd].
  - destruct (monitorLoop host devices script) as [acts out]. reflexivity.
  - reflexivity.
Qed.

Lemma registerDevices_no_event_set_action (devices : list Device) :
  Forall (fun a => isOpenEventSet a = false /\ isCloseEventSet a = false
                   /\ isWaitForEvent a = false)
         (fst (registerDevices host devices)).
Proof.
  induction devices as [| x devices IH]; cbn [registerDevices]; [constructor |].
  destruct (nvml.RegisterEventForDevice _ _ _) as [msg |].
  - destruct (strings.HasSuffix msg "Not Supported").
    + destruct (registerDevices host devices) as [acts ok]. cbn in *.
      repeat constructor. exact IH.
    + repeat constructor.
  - destruct (registerDevices host devices) as [acts ok]. cbn in *.
    repeat constructor. exact IH.
Qed.

Lemma monitorLoop_no_event_set_action (devices : list Device) (script : list Observation) :
  Forall (fun a => isOpenEventSet a = false /\ isCloseEventSet a = false)
         (fst (monitorLoop host devices script)).
Proof.
  induction script as [| o script IH]; cbn [monitorLoop]; [constructor |].
  destruct o as [| e err]; [constructor |].
  destruct (handleEvent host devices e err) as [sent ok].
  assert (Hs : Forall (fun a => isOpenEventSet a = false /\ isCloseEventSet a = false)
                      (map SendUnhealthy sent)).
  { apply Forall_forall. intros a Ha. apply in_map_iff in Ha as (d & <- & _). auto. }
  destruct ok.
  - destruct (monitorLoop host devices script) as [acts out]. cbn in *.
    constructor; [auto |]. apply Forall_app. auto.
  - cbn. constructor; [auto | exact Hs].
Qed.

End Run.

(** Nothing but a monitored device is ever written to the unhealthy
    channel, whatever the driver answers and whatever events arrive. *)
Theorem checkHealth_reports_only_monitored_devices :
  forall (host : Host) (devices : list Device) (script : list Observation),
    Forall (fun d => In d devices) (unhealthyOf (fst (checkHealth host devices script))).
Proof.
  intros host devices script. apply Forall_forall. intros d.
  destruct (healthChecksDisabled host) eqn:E.
  - rewrite checkHealth_disabled by exact E. intros [].
  - rewrite checkHealth_enabled_run by exact E.
    destruct (snd (registerDevices host devices)); cbn [fst unhealthyOf].
    + rewrite !unhealthyOf_app, unhealthyOf_deferred, app_nil_r.
      intros H. apply in_app_or in H as [H | H].
      * now apply (registerDevices_sends_monitored host devices).
      * now apply (monitorLoop_sends_monitored host devices script).
    + rewrite unhealthyOf_app, app_nil_r.
      apply (registerDevices_sends_monitored host devices).
Qed.

(** The event set is handled as a scoped resource.  A run that is not
    disabled opens it first and exactly once; it closes it exactly once,
    as its last action, when the function is left by a return or by a
    panic, and never while the loop is still going.  A disabled run does
    neither. *)
Theorem checkHealth_event_set_is_scoped :
  forall (host : Host) (devices : list Device) (script : list Observation),
    if healthChecksDisabled host
    then checkHealth host devices script = ([], Returned)
    else exists middle,
        fst (checkHealth host devices script)
        = (OpenEventSet :: middle
             ++ match snd (checkHealth host devices script) with
                | Running => []
                | Returned | Panicked => [CloseEventSet]
                end)%list
        /\ Forall (fun a => isOpenEventSet a = false /\ isCloseEventSet a = false)
                  middle.
Proof.
  intros host devices script.
  destruct (healthChecksDisabled host) eqn:E; [now apply checkHealth_disabled |].
  rewrite checkHealth_enabled_run by exact E.
  pose proof (registerDevices_no_event_set_action host devices) as Hreg.
  pose proof (monitorLoop_no_event_set_action host devices script) as Hmon.
  assert (Hreg' : Forall (fun a => isOpenEventSet a = false /\ isCloseEventSet a = false)
                         (fst (registerDevices host devices))).
  { eapply Forall_impl; [| exact Hreg]. cbn. intros a (H1 & H2 & _). auto. }
  destruct (snd (registerDevices host devices)); cbn [fst snd].
  - exists (fst (registerDevices host devices) ++ fst (monitorLoop host devices script))%list.
    split.
    + rewrite <- app_assoc. destruct (snd (monitorLoop host devices script)); reflexivity.
    + apply Forall_app. auto.
  - exists (fst (registerDevices host devices)). auto.
Qed.

(** ** Stopping, waiting and registering *)

Section Loop.

Variable host : Host.

Lemma monitorLoop_stop (devices : list Device) (before after : list Observation) :
  monitorLoop host devices (before ++ StopFired :: after)
  = monitorLoop host devices (before ++ [StopFired])
  /\ snd (monitorLoop host devices (before ++ StopFired :: after)) <> Running.
Proof.
  induction before as [| o before [IH1 IH2]]; cbn [app monitorLoop].
  - split; [reflexivity | discriminate].
  - destruct o as [| e err]; [split; [reflexivity | discriminate] |].
    destruct (handleEvent host devices e err) as [sent [|]].
    + rewrite IH1.
      destruct (monitorLoop host devices (before ++ [StopFired])) as [acts out] eqn:E.
      split; [reflexivity |]. cbn. rewrite IH1 in IH2. exact IH2.
    + split; [reflexivity | discriminate].
Qed.

Lemma handleEvent_quiet (devices : list Device) (e : nvml.Event) (err : error) :
  quietObservation (Waited e err) = true ->
  handleEvent host devices e err = ([], true).
Proof.
  cbn [quietObservation]. intros H. apply orb_true_iff in H as [H | H].
  - unfold handleEvent. now rewrite H.
  - now apply handleEvent_application_error.
Qed.

Lemma registerDevices_without_fatal_error (devices : list Device) :
  (forall d, In d devices -> fatalError (registrationError host d) = false) ->
  snd (registerDevices host devices) = true
  /\ unhealthyOf (fst (registerDevices host devices))
     = filter (fun d => notSupported (registrationError host d)) devices
  /\ registeredOf (fst (registerDevices host devices))
     = map (fun d => registeredGpu host (extractRealDeviceID (ID d))) devices.
Proof.
  induction devices as [| x devices IH]; intros H; cbn [registerDevices filter map].
  - auto.
  - destruct IH as (IH1 & IH2 & IH3); [intros d Hd; apply H; now right |].
    pose proof (H x (or_introl eq_refl)) as Hx.
    unfold registrationError in *.
    destruct (nvml.RegisterEventForDevice _ _ _) as [msg |]; cbn [fatalError notSupported] in *.
    + apply negb_false_iff in Hx. rewrite Hx.
      destruct (registerDevices host devices) as [acts ok]. cbn in *.
      now rewrite IH2, IH3.
    + destruct (registerDevices host devices) as [acts ok]. cbn in *.
      now rewrite IH2, IH3.
Qed.

Lemma registerDevices_fatal (before after : list Device) (d : Device) :
  (forall x, In x before -> fatalError (registrationError host x) = false) ->
  fatalError (registrationError host d) = true ->
  registerDevices host (before ++ d :: after)
  = (fst (registerDevices host before)
       ++ [RegisterEvent nvml.XidCriticalError
             (registeredGpu host (extractRealDeviceID (ID d)))],
     false)%list.
Proof.
  intros Hbefore Hd.
  induction before as [| x before IH]; cbn [app registerDevices].
  - unfold registrationError in Hd.
    destruct (nvml.RegisterEventForDevice _ _ _) as [msg |]; [| discriminate].
    cbn in Hd. apply negb_true_iff in Hd. rewrite Hd. reflexivity.
  - pose proof (Hbefore x (or_introl eq_refl)) as Hx.
    unfold registrationError in Hx.
    rewrite IH by (intros y Hy; apply Hbefore; now right).
    destruct (nvml.RegisterEventForDevice _ _ _) as [msg |]; cbn [fatalError] in Hx.
    + apply negb_false_iff in Hx. rewrite Hx.
      destruct (registerDevices host before) as [acts ok]. reflexivity.
    + destruct (registerDevices host before) as [acts ok]. reflexivity.
Qed.

End Loop.

(** The stop signal ends the run: what the script holds after the first
    round at which the stop channel is ready has no effect, and a run
    that meets such a round is not left running. *)
Theorem checkHealth_stops_at_stop_signal :
  forall (host : Host) (devices : list Device) (before after : list Observation),
    checkHealth host devices (before ++ StopFired :: after)
    = checkHealth host devices (before ++ [StopFired])
    /\ snd (checkHealth host devices (before ++ StopFired :: after)) <> Running.
Proof.
  intros host devices before after.
  destruct (monitorLoop_stop host devices before after) as [Heq Hout].
  unfold checkHealth.
  destruct (healthChecksDisabled host); [split; [reflexivity | discriminate] |].
  destruct (registerDevices host devices) as [registered [|]].
  - rewrite Heq. rewrite Heq in Hout.
    destruct (monitorLoop host devices (before ++ [StopFired])) as [acts out].
    split; [reflexivity | exact Hout].
  - split; [reflexivity | discriminate].
Qed.

(** Rounds that are skipped produce nothing: over a script whose waits all
    fail on a non-critical event (a timeout) or deliver an application
    error, the monitor loop only waits, 5000 ms at a time and once per
    round until the stop channel is ready, sends nothing, and returns if
    the stop signal comes. *)
Theorem monitorLoop_quiet_rounds_only_wait :
  forall (host : Host) (devices : list Device) (script : list Observation),
    forallb quietObservation script = true ->
    monitorLoop host devices script
    = (repeat (WaitForEvent 5000) (waitsBeforeStop script),
       if existsb isStopFired script then Returned else Running).
Proof.
  intros host devices script. induction script as [| o script IH]; intros H.
  - reflexivity.
  - cbn [forallb] in H. apply andb_true_iff in H as [Ho H].
    destruct o as [| e err]; [reflexivity |].
    cbn [monitorLoop waitsBeforeStop existsb isStopFired repeat orb].
    rewrite (handleEvent_quiet host devices e err Ho), (IH H). reflexivity.
Qed.

(** Two timeouts, an application error, then the stop signal. *)
Lemma monitorLoop_quiet_rounds_only_wait_witness :
  monitorLoop (healthHost "") [slice "GPU-1" 0]
    [Waited noEvent (Some "Timeout"); Waited noEvent (Some "Timeout");
     Waited (xidEvent None None None 8 45) None; StopFired]
  = ([WaitForEvent 5000; WaitForEvent 5000; WaitForEvent 5000], Returned).
Proof.
  apply (monitorLoop_quiet_rounds_only_wait (healthHost "") [slice "GPU-1" 0]
           [Waited noEvent (Some "Timeout"); Waited noEvent (Some "Timeout");
            Waited (xidEvent None None None 8 45) None; StopFired]).
  reflexivity.
Defined.

(** Registration without a fatal error: every monitored device is
    registered once, in order, for the GPU its identifier decodes to (the
    parent GPU for a MIG UUID); exactly the devices whose registration
    answers "Not Supported" are reported unhealthy, in order, and the
    monitor goes on.  With the stop signal at the first round the run is
    the registration between the opening and the closing of the event
    set. *)
Theorem checkHealth_registers_every_device :
  forall (host : Host) (devices : list Device) (rest : list Observation),
    healthChecksDisabled host = false ->
    (forall d, In d devices -> fatalError (registrationError host d) = false) ->
    checkHealth host devices (StopFired :: rest)
    = (OpenEventSet :: fst (registerDevices host devices) ++ [CloseEventSet], Returned)
    /\ registeredOf (fst (registerDevices host devices))
       = map (fun d => registeredGpu host (extractRealDeviceID (ID d))) devices
    /\ unhealthyOf (fst (checkHealth host devices (StopFired :: rest)))
       = filter (fun d => notSupported (registrationError host d)) devices.
Proof.
  intros host devices rest Hon Hok.
  destruct (registerDevices_without_fatal_error host devices Hok) as (H1 & H2 & H3).
  assert (Hrun : checkHealth host devices (StopFired :: rest)
                 = (OpenEventSet :: fst (registerDevices host devices) ++ [CloseEventSet],
                    Returned)).
  { rewrite checkHealth_enabled_run by exact Hon. rewrite H1. reflexivity. }
  split; [exact Hrun |]. split; [exact H3 |].
  rewrite Hrun. cbn [fst unhealthyOf]. now rewrite unhealthyOf_app, app_nil_r.
Qed.

(** A new GPU, an old one that does not support events, a new one. *)
Lemma checkHealth_registers_every_device_witness :
  checkHealth registrationHost
    [slice "GPU-new" 0; slice "GPU-old" 0; slice "GPU-new" 1] [StopFired]
  = ([OpenEventSet;
      RegisterEvent nvml.XidCriticalError "GPU-new";
      RegisterEvent nvml.XidCriticalError "GPU-old";
      SendUnhealthy (slice "GPU-old" 0);
      RegisterEvent nvml.XidCriticalError "GPU-new";
      CloseEventSet], Returned).
Proof.
  refine (eq_trans
            (proj1 (checkHealth_registers_every_device registrationHost
                      [slice "GPU-new" 0; slice "GPU-old" 0; slice "GPU-new" 1]
                      [] eq_refl _)) _).
  - intros d [<- | [<- | [<- | []]]]; reflexivity.
  - reflexivity.
Defined.

(** A registration error other than "Not Supported" is fatal: the run
    panics at that device, whatever events would have come; the devices
    after it are not registered, nothing is waited for, and the event set
    is closed. *)
Theorem checkHealth_panics_on_registration_error :
  forall (host : Host) (before after : list Device) (d : Device)
         (script : list Observation),
    healthChecksDisabled host = false ->
    (forall x, In x before -> fatalError (registrationError host x) = false) ->
    fatalError (registrationError host d) = true ->
    checkHealth host (before ++ d :: after) script
    = (OpenEventSet
         :: fst (registerDevices host before)
         ++ [RegisterEvent nvml.XidCriticalError
               (registeredGpu host (extractRealDeviceID (ID d)));
             CloseEventSet],
       Panicked)
    /\ registeredOf (fst (checkHealth host (before ++ d :: after) script))
       = map (fun x => registeredGpu host (extractRealDeviceID (ID x))) (before ++ [d])
    /\ existsb isWaitForEvent (fst (checkHealth host (before ++ d :: after) script)) = false.
Proof.
  intros host before after d script Hon Hbefore Hd.
  destruct (registerDevices_without_fatal_error host before Hbefore) as (_ & _ & H3).
  assert (Hrun : checkHealth host (before ++ d :: after) script
                 = (OpenEventSet
                      :: fst (registerDevices host before)
                      ++ [RegisterEvent nvml.XidCriticalError
                            (registeredGpu host (extractRealDeviceID (ID d)));
                          CloseEventSet],
                    Panicked)).
  { rewrite checkHealth_enabled_run by exact Hon.
    rewrite (registerDevices_fatal host before after d Hbefore Hd). cbn [fst snd].
    now rewrite <- app_assoc. }
  split; [exact Hrun |]. rewrite Hrun. cbn [fst registeredOf existsb isWaitForEvent orb].
  split.
  - rewrite map_app. cbn [map]. rewrite <- H3.
    generalize (fst (registerDevices host before)) as acts.
    induction acts as [| a acts IH]; [reflexivity |].
    destruct a; cbn; now rewrite IH.
  - rewrite existsb_app. cbn. rewrite orb_false_r.
    pose proof (registerDevices_no_event_set_action host before) as Hreg.
    clear - Hreg.
    induction Hreg as [| a acts (_ & _ & Ha) _ IH]; [reflexivity |].
    cbn. now rewrite Ha, IH.
Qed.

(** A new GPU, then one whose registration fails, then one more. *)
Lemma checkHealth_panics_on_registration_error_witness :
  checkHealth registrationHost
    [slice "GPU-new" 0; slice "GPU-bad" 0; slice "GPU-new" 1]
    [Waited (xidEvent None None None 8 79) None; StopFired]
  = ([OpenEventSet;
      RegisterEvent nvml.XidCriticalError "GPU-new";
      RegisterEvent nvml.XidCriticalError "GPU-bad";
      CloseEventSet], Panicked).
Proof.
  refine (eq_trans
            (proj1 (checkHealth_panics_on_registration_error registrationHost
                      [slice "GPU-new" 0] [slice "GPU-new" 1] (slice "GPU-bad" 0)
                      [Waited (xidEvent None None None 8 79) None; StopFired]
                      eq_refl _ eq_refl)) _).
  - intros d [<- | []]; reflexivity.
  - reflexivity.
Defined.

(** ** Events against the devices of an enumeration *)

Section Events.

Variable host : Host.

Lemma matchDevices_nil_instance (x : string) (e : nvml.Event) (devices : list Device) :
  nvml.GpuInstanceId e = None ->
  matchDevices host x e devices
  = ([], negb (existsb (fun d => String.eqb (deviceGpu host d) x) devices)).
Proof.
  intros Hgi. induction devices as [| d devices IH]; cbn [matchDevices existsb].
  - reflexivity.
  - unfold deviceGpu at 1. destruct (deviceTriple host d) as [[gpu gi] ci].
    cbn [fst eventMatches]. rewrite Hgi.
    destruct (String.eqb gpu x); cbn [negb orb]; [reflexivity |].
    rewrite IH. reflexivity.
Qed.

Lemma extractRealDeviceID_clean (realID : string) :
  cleanID realID -> extractRealDeviceID realID = realID.
Proof.
  intros [Hc _]. apply extractRealDeviceID_no_separator.
  now apply Contains_false_Index.
Qed.

Lemma deviceTriple_fakeDevice (d : nvml.Device) (j : Z) :
  cleanID (nvml.UUID d) ->
  snd (nvml.ParseMigDeviceUUID (driver host) (nvml.UUID d)) <> None ->
  deviceTriple host (fakeDevice d j) = (nvml.UUID d, 4294967295, 4294967295).
Proof.
  intros Hclean Hparse. unfold deviceTriple. cbn [ID fakeDevice].
  rewrite extractRealDeviceID_encoded by exact Hclean.
  destruct (nvml.ParseMigDeviceUUID (driver host) (nvml.UUID d)) as [t [msg |]];
    [reflexivity | now cbn in Hparse].
Qed.

Lemma handleEvent_filter (devices : list Device) (e : nvml.Event) (err : error)
  (x : string) (gi ci : Z) :
  nvml.Etype e = nvml.XidCriticalError ->
  applicationXid (nvml.Edata e) = false ->
  nvml.EventUUID e = Some x ->
  x <> EmptyString ->
  nvml.GpuInstanceId e = Some gi ->
  nvml.ComputeInstanceId e = Some ci ->
  handleEvent host devices e err
  = (filter (fun d => tripleEqb (deviceTriple host d) (x, gi, ci)) devices, true).
Proof.
  intros Ht Hd Hx Hne Hgi Hci.
  rewrite handleEvent_critical by assumption. rewrite Hx.
  destruct x as [| c x]; [congruence |]. cbn [String.length Nat.eqb].
  now apply matchDevices_filter.
Qed.

Lemma concatBlocks_In (block : Z -> nvml.Device -> list Device)
  (ds : list nvml.Device) :
  forall (mem : Z) (x : Device),
    In x (concatBlocks block mem ds) ->
    exists C d, In d ds /\ In x (block C d).
Proof.
  induction ds as [| d ds IH]; intros mem x H; [destruct H |].
  cbn [concatBlocks] in H. apply in_app_or in H as [H | H].
  - exists (latched mem d), d. split; [now left | exact H].
  - apply IH in H as (C & d' & Hin & Hx). exists C, d'. split; [now right | exact Hx].
Qed.

Lemma filter_concatBlocks (block : Z -> nvml.Device -> list Device)
  (p : Device -> bool) (sel : nvml.Device -> bool) (ds : list nvml.Device) :
  (forall C d x, In d ds -> In x (block C d) -> p x = sel d) ->
  forall mem,
    filter p (concatBlocks block mem ds)
    = concatBlocks (fun C d => if sel d then block C d else []) mem ds.
Proof.
  induction ds as [| d ds IH]; intros Hp mem; cbn [concatBlocks]; [reflexivity |].
  rewrite filter_app, IH by (intros C d' x Hd'; apply Hp; now right).
  f_equal. destruct (sel d) eqn:E.
  - apply filter_all. intros x Hx. rewrite <- E.
    apply (Hp (latched mem d) d); [now left | exact Hx].
  - apply filter_none. intros x Hx. rewrite <- E.
    apply (Hp (latched mem d) d); [now left | exact Hx].
Qed.

Lemma NoDup_UUID_elsewhere (ds : list nvml.Device) (k : nat) (d d' : nvml.Device) :
  NoDup (map nvml.UUID ds) ->
  nth_error ds k = Some d ->
  In d' (firstn k ds) \/ In d' (skipn (S k) ds) ->
  nvml.UUID d' <> nvml.UUID d.
Proof.
  intros Hnd Hk Hin Heq.
  destruct (nth_error_split ds k Hk) as (l1 & l2 & Hds & Hlen).
  subst ds. rewrite firstn_app, skipn_app in Hin.
  rewrite <- Hlen in Hin.
  rewrite firstn_all, Nat.sub_diag, app_nil_r in Hin.
  rewrite (skipn_all2 l1) in Hin by lia.
  replace (S (List.length l1) - List.length l1)%nat with 1%nat in Hin by lia.
  cbn [app skipn] in Hin.
  rewrite map_app in Hnd. cbn [map] in Hnd. apply NoDup_remove_2 in Hnd.
  apply Hnd. rewrite <- Heq, <- map_app. apply in_map, in_or_app. exact Hin.
Qed.

End Events.

(** A nil instance pointer in a critical event is dereferenced only when
    a monitored device belongs to the GPU of the event: then the round
    panics before anything is sent; when no monitored device belongs to
    that GPU the round sends nothing and the loop goes on. *)
Theorem handleEvent_nil_instance_pointer :
  forall (host : Host) (devices : list Device) (e : nvml.Event) (err : error)
         (x : string),
    nvml.Etype e = nvml.XidCriticalError ->
    applicationXid (nvml.Edata e) = false ->
    nvml.EventUUID e = Some x ->
    x <> EmptyString ->
    nvml.GpuInstanceId e = None ->
    handleEvent host devices e err
    = ([], negb (existsb (fun d => String.eqb (deviceGpu host d) x) devices)).
Proof.
  intros host devices e err x Ht Hd Hx Hne Hgi.
  rewrite handleEvent_critical by assumption. rewrite Hx.
  destruct x as [| c x]; [congruence |]. cbn [String.length Nat.eqb].
  now apply matchDevices_nil_instance.
Qed.

(** An event for GPU-1 without instance identifiers, with and without a
    monitored slice of GPU-1. *)
Lemma handleEvent_nil_instance_pointer_witness :
  handleEvent (healthHost "") [slice "GPU-2" 0; slice "GPU-1" 0]
    (xidEvent (Some "GPU-1") None None 8 79) None = ([], false)
  /\ handleEvent (healthHost "") [slice "GPU-2" 0]
       (xidEvent (Some "GPU-1") None None 8 79) None = ([], true).
Proof.
  split.
  - refine (eq_trans
              (handleEvent_nil_instance_pointer (healthHost "")
                 [slice "GPU-2" 0; slice "GPU-1" 0]
                 (xidEvent (Some "GPU-1") None None 8 79) None "GPU-1"
                 eq_refl eq_refl eq_refl _ eq_refl) _);
      [discriminate | reflexivity].
  - refine (eq_trans
              (handleEvent_nil_instance_pointer (healthHost "") [slice "GPU-2" 0]
                 (xidEvent (Some "GPU-1") None None 8 79) None "GPU-1"
                 eq_refl eq_refl eq_refl _ eq_refl) _);
      [discriminate | reflexivity].
Defined.

(** Enumeration and monitoring fit together in whole-device mode: on
    the devices an enumeration returns, a critical event (code not 31, 43
    or 45) that names the UUID of an accelerator and carries the instance
    identifiers 0xFFFFFFFF reports exactly the slices of that accelerator,
    in order, and no slice of any other accelerator.  The accelerators
    must have distinct, non-empty UUIDs that the decoder recovers and that
    are not MIG UUIDs. *)
Theorem handleEvent_reports_slices_of_accelerator :
  forall (name : string) (host : Host) (g : GpuDeviceManager)
         (ds : list nvml.Device) (R mem : Z) (k : nat) (d : nvml.Device)
         (e : nvml.Event) (err : error),
    Enumerates host ds ->
    ReservationIs host name R ->
    0 <= mem < uint_modulus ->
    NoDup (map nvml.UUID ds) ->
    (forall d', In d' ds ->
       cleanID (nvml.UUID d')
       /\ snd (nvml.ParseMigDeviceUUID (driver host) (nvml.UUID d')) <> None) ->
    nth_error ds k = Some d ->
    skippedBy host g d = false ->
    nvml.UUID d <> EmptyString ->
    nvml.Etype e = nvml.XidCriticalError ->
    applicationXid (nvml.Edata e) = false ->
    nvml.EventUUID e = Some (nvml.UUID d) ->
    nvml.GpuInstanceId e = Some 4294967295 ->
    nvml.ComputeInstanceId e = Some 4294967295 ->
    exists devs mem',
      GpuDeviceManager_Devices name host g mem = Ok (devs, mem')
      /\ handleEvent host devs e err
         = (map (fakeDevice d) (uintRange (usableWhole (baselineAt mem ds k) R)), true).
Proof.
  intros name host g ds R mem k d e err Henum HR Hrange Hnd Hids Hk Hskip Hne
         Ht Hd Hx Hgi Hci.
  exists (wholeDeviceSlices host g R mem ds), (fold_left latched ds mem).
  split; [now apply GpuDeviceManager_Devices_run |].
  rewrite (handleEvent_filter host _ e err (nvml.UUID d) 4294967295 4294967295)
    by assumption.
  f_equal. unfold wholeDeviceSlices.
  rewrite (filter_concatBlocks _ _ (fun d' => String.eqb (nvml.UUID d') (nvml.UUID d))).
  - rewrite (concatBlocks_nth _ ds mem k d Hk).
    rewrite String.eqb_refl.
    rewrite !concatBlocks_nil.
    + rewrite app_nil_r. cbn [app]. unfold wholeDeviceBlock.
      unfold skippedBy in Hskip. now rewrite Hskip.
    + intros C d' Hd'.
      assert (Hneq : nvml.UUID d' <> nvml.UUID d)
        by (apply (NoDup_UUID_elsewhere ds k d d' Hnd Hk); auto).
      apply String.eqb_neq in Hneq. now rewrite Hneq.
    + intros C d' Hd'.
      assert (Hneq : nvml.UUID d' <> nvml.UUID d)
        by (apply (NoDup_UUID_elsewhere ds k d d' Hnd Hk); auto).
      apply String.eqb_neq in Hneq. now rewrite Hneq.
  - intros C d' x Hd' Hx'. unfold wholeDeviceBlock in Hx'.
    destruct (migEnabledOn host d' && skipMigEnabledGPUs g); [destruct Hx' |].
    apply in_map_iff in Hx' as (j & <- & _).
    destruct (Hids d' Hd') as [Hclean Hparse].
    rewrite deviceTriple_fakeDevice by assumption.
    cbn [tripleEqb]. now rewrite !Z.eqb_refl, !andb_true_r.
Qed.

(** Two GPUs with 300 units each, reservation 50, an event on the second. *)
Lemma handleEvent_reports_slices_of_accelerator_witness :
  exists devs mem',
    GpuDeviceManager_Devices reservedVar (pairHost 300 300 false "50")
      (NewGpuDeviceManager false) 0 = Ok (devs, mem')
    /\ handleEvent (pairHost 300 300 false "50") devs
         (xidEvent (Some (nvml.UUID (gpuB 300))) (Some 4294967295) (Some 4294967295) 8 79)
         None
       = (map (fakeDevice (gpuB 300)) (uintRange 150), true).
Proof.
  apply (handleEvent_reports_slices_of_accelerator reservedVar
           (pairHost 300 300 false "50") (NewGpuDeviceManager false)
           [gpuA 300; gpuB 300] 50 0 1 (gpuB 300)
           (xidEvent (Some (nvml.UUID (gpuB 300))) (Some 4294967295) (Some 4294967295) 8 79)
           None).
  - apply pairHost_Enumerates.
  - split; [reflexivity | lia].
  - unfold uint_modulus; lia.
  - repeat constructor; cbn; intuition discriminate.
  - intros d' [<- | [<- | []]]; (split; [split; reflexivity | discriminate]).
  - reflexivity.
  - reflexivity.
  - discriminate.
  - reflexivity.
  - reflexivity.
  - reflexivity.
  - reflexivity.
  - reflexivity.
Defined.

(** In partitioned mode the virtual devices are named after the parent
    GPU, so an event that the driver attributes to a MIG instance (an
    instance identifier other than 0xFFFFFFFF) reports none of the
    devices the enumeration returned, whichever GPU it names. *)
Theorem MigDeviceManager_devices_miss_instance_events :
  forall (name : string) (host : Host) (m : MigDeviceManager)
         (ds : list nvml.Device) (R mem : Z) (e : nvml.Event) (err : error)
         (x : string) (gi ci : Z),
    Enumerates host ds ->
    ListsPartitions host ds ->
    ReservationIs host name R ->
    0 <= mem < uint_modulus ->
    (forall d, In d ds ->
       cleanID (nvml.UUID d)
       /\ snd (nvml.ParseMigDeviceUUID (driver host) (nvml.UUID d)) <> None) ->
    nvml.Etype e = nvml.XidCriticalError ->
    applicationXid (nvml.Edata e) = false ->
    nvml.EventUUID e = Some x ->
    x <> EmptyString ->
    nvml.GpuInstanceId e = Some gi ->
    nvml.ComputeInstanceId e = Some ci ->
    gi <> 4294967295 \/ ci <> 4294967295 ->
    exists devs mem',
      MigDeviceManager_Devices name host m mem = Ok (devs, mem')
      /\ handleEvent host devs e err = ([], true).
Proof.
  intros name host m ds R mem e err x gi ci Henum Hlist HR Hrange Hids
         Ht Hd Hx Hne Hgi Hci Hinst.
  exists (partitionSlices host m R mem ds), (fold_left latched ds mem).
  split; [now apply MigDeviceManager_Devices_run |].
  rewrite (handleEvent_filter host _ e err x gi ci) by assumption.
  f_equal. apply filter_none. intros dev Hdev.
  apply concatBlocks_In in Hdev as (C & d & Hin & Hdev).
  unfold partitionBlock in Hdev.
  destruct (migEnabledOn host d); [| destruct Hdev].
  apply in_flat_map in Hdev as (mig & _ & Hdev).
  apply in_map_iff in Hdev as (j & <- & _).
  destruct (Hids d Hin) as [Hclean Hparse].
  rewrite deviceTriple_fakeDevice by assumption. cbn [tripleEqb].
  destruct Hinst as [Hinst | Hinst]; apply not_eq_sym, Z.eqb_neq in Hinst;
    rewrite Hinst; [now rewrite andb_false_r | now rewrite andb_false_r].
Qed.

(** A MIG-enabled GPU with two MIG devices and an event from its GPU
    instance 1. *)
Lemma MigDeviceManager_devices_miss_instance_events_witness :
  exists devs mem',
    MigDeviceManager_Devices reservedVar (migHost 300 "50")
      (NewMigDeviceManager anyMig "x") 0 = Ok (devs, mem')
    /\ handleEvent (migHost 300 "50") devs
         (xidEvent (Some (nvml.UUID (gpuA 300))) (Some 1) (Some 0) 8 79) None
       = ([], true).
Proof.
  apply (MigDeviceManager_devices_miss_instance_events reservedVar (migHost 300 "50")
           (NewMigDeviceManager anyMig "x") [gpuA 300] 50 0
           (xidEvent (Some (nvml.UUID (gpuA 300))) (Some 1) (Some 0) 8 79) None
           (nvml.UUID (gpuA 300)) 1 0).
  - apply migHost_Enumerates.
  - apply migHost_ListsPartitions.
  - split; [reflexivity | lia].
  - unfold uint_modulus; lia.
  - intros d [<- | []]. split; [split; reflexivity | discriminate].
  - reflexivity.
  - reflexivity.
  - reflexivity.
  - discriminate.
  - reflexivity.
  - reflexivity.
  - left. discriminate.
Defined.

(** Slicing is invisible to health checking: a slice of an accelerator is
    registered for the same GPU, gets the same answer, and is compared
    with events through the same triple as the unsliced device that
    [buildDevice] makes of the accelerator, provided the decoder recovers
    the accelerator's UUID. *)
Theorem fakeDevice_monitored_like_buildDevice :
  forall (host : Host) (d : nvml.Device) (j : Z),
    cleanID (nvml.UUID d) ->
    extractRealDeviceID (ID (fakeDevice d j)) = ID (buildDevice d)
    /\ deviceTriple host (fakeDevice d j) = deviceTriple host (buildDevice d)
    /\ registrationError host (fakeDevice d j) = registrationError host (buildDevice d)
    /\ Health (fakeDevice d j) = Health (buildDevice d)
    /\ Path (fakeDevice d j) = Path (buildDevice d).
Proof.
  intros host d j Hclean.
  assert (H1 : extractRealDeviceID (ID (fakeDevice d j)) = nvml.UUID d)
    by (apply extractRealDeviceID_encoded; exact Hclean).
  assert (H2 : extractRealDeviceID (ID (buildDevice d)) = nvml.UUID d)
    by (apply extractRealDeviceID_clean; exact Hclean).
  split; [exact H1 |].
  unfold deviceTriple, registrationError. rewrite H1, H2. auto.
Qed.

(** The GPU of the concrete hosts and its slice 17. *)
Lemma fakeDevice_monitored_like_buildDevice_witness :
  deviceTriple (healthHost "") (fakeDevice (gpuA 8000) 17)
  = deviceTriple (healthHost "") (buildDevice (gpuA 8000)).
Proof.
  apply (fakeDevice_monitored_like_buildDevice (healthHost "") (gpuA 8000) 17).
  split; reflexivity.
Defined.
